(** * openmdao.Model: the browser-side proxy of the modelling server

    A shallow embedding of [openmdao/gui/static/js/openmdao/Model.js].

    The constructor [openmdao.Model] closes over three private variables
    ([callbacks], [modelJSON], [types]) and talks to the outside through
    [jQuery.ajax], the [debug] console and the functions its callers hand in.
    The embedding threads these explicitly:

    - the private variables are fields of [world];
    - [jQuery.ajax(settings)] queues [settings] in [pending] and records the
      call in [trace]; the server's answer arrives later, as a separate
      [respond] step that runs the [success] handler of the queued request;
    - a function supplied by a caller is a [VFunction f]: calling it records
      [invoke f args] in [trace].  What the body of such a function does is
      the caller's business and is not part of this object;
    - a JavaScript exception ends the method with [Thrown].

    JavaScript strings are modelled by [string], one [ascii] per code unit
    (code units below 256).  Snapshot data is [json]; a property read on it
    looks up own members (and [length] and indices of arrays and strings)
    and, where there is none, goes on in the prototypes of the environment,
    which [getObject] takes as a parameter ([host]).

    All methods of the object are embedded.  [newFile] and [newFolder]
    start where the name prompt calls back. *)

From Stdlib Require Import String Ascii List ZArith Bool Arith Lia.
Import ListNotations.
Open Scope string_scope.
Set Warnings "-register-all".

(* ================================================================== *)
(** ** Values *)

(** A JavaScript number.  The Model never computes with numbers, it only
    asks [typeof] and passes them on, so the whole numbers and the three
    values that are not finite stand for all of them here. *)
Inductive number : Type :=
| Int (z : Z)
| NaN
| Infinity (negative : bool).

(** Data as [JSON.parse] delivers it.  An object is the list of its members,
    one entry per name. *)
Inductive json : Type :=
| JNull
| JBool (b : bool)
| JNum (n : number)
| JStr (s : string)
| JArr (items : list json)
| JObj (members : list (string * json)).

(** What a variable of the Model can hold: [undefined], data, a function
    (whoever wrote it, identified by [f]), an XML document, a jQuery
    selection, or another object of the environment that is not a function
    (a prototype object, say), identified by [h]. *)
Inductive value : Type :=
| VUndefined
| VData (j : json)
| VFunction (f : nat)
| VXml (doc : nat)
| VJQuery (selector : string) (context : value)
| VObject (h : nat).

Definition null : value := VData JNull.

(** [typeof v] *)
Definition typeof (v : value) : string :=
  match v with
  | VUndefined => "undefined"
  | VData JNull => "object"
  | VData (JBool _) => "boolean"
  | VData (JNum _) => "number"
  | VData (JStr _) => "string"
  | VData (JArr _) => "object"
  | VData (JObj _) => "object"
  | VFunction _ => "function"
  | VXml _ => "object"
  | VJQuery _ _ => "object"
  | VObject _ => "object"
  end.

(* ================================================================== *)
(** ** Strings *)

Module Str.

(** [s.replace(/c/g, by)] for a one-character pattern [c] *)
Fixpoint replace_char (c : ascii) (by_ : string) (s : string) : string :=
  match s with
  | EmptyString => EmptyString
  | String a rest =>
      if Ascii.eqb a c then by_ ++ replace_char c by_ rest
      else String a (replace_char c by_ rest)
  end.

(** Line terminators: the characters the regular expression [.] refuses. *)
Definition line_terminator (a : ascii) : bool :=
  Ascii.eqb a "010"%char || Ascii.eqb a "013"%char.

(** [s.replace(/.py/g, '')]: scanning from the left, every match of
    "any character but a line terminator, then p, then y" is dropped and the
    scan goes on behind it. *)
Fixpoint remove_any_py (s : string) : string :=
  match s with
  | EmptyString => EmptyString
  | String a rest =>
      match rest with
      | String b (String c rest') =>
          if negb (line_terminator a)
             && Ascii.eqb b "p"%char && Ascii.eqb c "y"%char
          then remove_any_py rest'
          else String a (remove_any_py rest)
      | _ => String a (remove_any_py rest)
      end
  end.

(** [s.split(c)] *)
Fixpoint split (c : ascii) (s : string) : list string :=
  match s with
  | EmptyString => [EmptyString]
  | String a rest =>
      if Ascii.eqb a c then EmptyString :: split c rest
      else match split c rest with
           | tok :: toks => String a tok :: toks
           | [] => [String a EmptyString]
           end
  end.

(** [s[i]]: the character at [i] as a one-character string, if there is
    one *)
Definition at_ (s : string) (i : nat) : option string :=
  match String.get i s with
  | Some a => Some (String a EmptyString)
  | None => None
  end.

(** [s.substring(i, j)]: both ends are clamped to the length and swapped
    when they come in the wrong order. *)
Definition substring (s : string) (i j : nat) : string :=
  let i := Nat.min i (String.length s) in
  let j := Nat.min j (String.length s) in
  String.substring (Nat.min i j) (Nat.max i j - Nat.min i j) s.

Definition digit (a : ascii) : option nat :=
  let n := nat_of_ascii a in
  if ((48 <=? n) && (n <=? 57))%nat then Some (n - 48)%nat else None.

Fixpoint digits (acc : nat) (s : string) : option nat :=
  match s with
  | EmptyString => Some acc
  | String a rest =>
      match digit a with
      | Some d => digits (10 * acc + d)%nat rest
      | None => None
      end
  end.

(** A property name that is an array index: decimal digits, no leading
    zero except in "0" itself. *)
Definition index (k : string) : option nat :=
  match k with
  | EmptyString => None
  | String "0"%char EmptyString => Some 0%nat
  | String "0"%char _ => None
  | _ => digits 0 k
  end.

End Str.

(* ================================================================== *)
(** ** Property reads on snapshot data *)

Inductive exn : Type :=
| TypeError (reading : string) (of_ : value).

Fixpoint lookup (k : string) (members : list (string * json)) : option json :=
  match members with
  | [] => None
  | (k', v) :: rest => if String.eqb k k' then Some v else lookup k rest
  end.

(** The own member [k] of a data value: a member of an object, the length
    or an element of an array, the length or a character of a string. *)
Definition own (j : json) (k : string) : option json :=
  match j with
  | JObj ms => lookup k ms
  | JArr items =>
      if String.eqb k "length"
      then Some (JNum (Int (Z.of_nat (List.length items))))
      else match Str.index k with
           | Some i => nth_error items i
           | None => None
           end
  | JStr s =>
      if String.eqb k "length"
      then Some (JNum (Int (Z.of_nat (String.length s))))
      else match Str.index k with
           | Some i => option_map JStr (Str.at_ s i)
           | None => None
           end
  | JNull => None
  | JBool _ => None
  | JNum _ => None
  end.

(** Model.js runs in a JavaScript environment that it does not define.  A
    read [obj[k]] that finds no own member [k] goes on in the prototypes of
    [obj] ([Object.prototype], [Array.prototype] and the like, where
    [constructor], [toString], [valueOf] and others live), and a value that
    is not data (a built-in function found in a prototype, for one) answers
    reads from properties of its own.  The embedding takes both as
    parameters:
    - [inherited j k] is the outcome of [j[k]] for a data value [j] other
      than [null] that has no own member [k]: [undefined] when the
      prototypes have no [k] either;
    - [foreign v k] is the outcome of [v[k]] for a value [v] that is neither
      data nor [undefined]. *)
Record host : Type := mkHost {
  inherited : json -> string -> exn + value;
  foreign : value -> string -> exn + value
}.

(** [obj[k]] in the environment [env].  Reading a property of [null] or
    [undefined] throws. *)
Definition member (env : host) (obj : value) (k : string) : exn + value :=
  match obj with
  | VUndefined => inl (TypeError k VUndefined)
  | VData JNull => inl (TypeError k null)
  | VData j =>
      match own j k with
      | Some v => inr (VData v)
      | None => inherited env j k
      end
  | _ => foreign env obj k
  end.

(* ================================================================== *)
(** ** The world of one Model object *)

(** The [success] entry of an ajax request: one of the function expressions
    of Model.js (with the variables it closes over), a caller's function
    passed through, [that.updateListeners], or no entry at all. *)
Inductive handler : Type :=
| on_types (callback : value)
    (* function(xml) { types = jQuery("Types",xml); callback(types) } *)
| on_json (callback : value)
    (* function(json) { modelJSON = json; callback(modelJSON) } *)
| on_command (callback : value)
    (* function(txt) { if (typeof callback == 'function') { callback(txt) };
                       that.updateListeners() } *)
| on_caller (callback : value)
    (* success: callback *)
| on_updateListeners
    (* success: that.updateListeners *)
| on_output (callback : value)
    (* function(text) { if (typeof callback == 'function') {
                          callback(text) }; } *)
| on_folder
    (* function(folder) { return folder } *)
| on_nothing.
    (* no success entry *)

(** The argument of [jQuery.ajax]. *)
Record settings : Type := mkSettings {
  url : string;
  type_ : option string;
  dataType : option string;
  data : option (list (string * value));
  success : handler;
  error : value
}.

(** What the Model does to the outside, in the order it does it: lines on
    the [debug] console, calls of functions, [jQuery.ajax] calls and
    [openmdao.Util.popupWindow] calls. *)
Inductive event : Type :=
| debug_info (msg : string)
| debug_error (msg : string)
| invoke (f : nat) (args : list value)
| ajax (s : settings)
| popupWindow (address title : string) (n1 n2 : Z).

Record world : Type := mkWorld {
  callbacks : list value;
  modelJSON : json;
  types : value;
  pending : list settings;
  trace : list event
}.

(** [new openmdao.Model()]: [callbacks = [], modelJSON = null, types = null] *)
Definition new_Model : world :=
  mkWorld [] JNull null [] [].

Definition set_callbacks (cs : list value) (w : world) : world :=
  mkWorld cs (modelJSON w) (types w) (pending w) (trace w).
Definition set_modelJSON (j : json) (w : world) : world :=
  mkWorld (callbacks w) j (types w) (pending w) (trace w).
Definition set_types (t : value) (w : world) : world :=
  mkWorld (callbacks w) (modelJSON w) t (pending w) (trace w).
Definition set_pending (p : list settings) (w : world) : world :=
  mkWorld (callbacks w) (modelJSON w) (types w) p (trace w).
Definition set_trace (t : list event) (w : world) : world :=
  mkWorld (callbacks w) (modelJSON w) (types w) (pending w) t.

(* ================================================================== *)
(** ** Running JavaScript: state and exceptions *)

Inductive result (A : Type) : Type :=
| Done (a : A) (w : world)
| Thrown (e : exn) (w : world).
Arguments Done {A} a w.
Arguments Thrown {A} e w.

Definition js (A : Type) : Type := world -> result A.

Definition ret {A} (a : A) : js A := fun w => Done a w.

Definition bind {A B} (m : js A) (k : A -> js B) : js B :=
  fun w => match m w with
           | Done a w' => k a w'
           | Thrown e w' => Thrown e w'
           end.

Definition throw {A} (e : exn) : js A := fun w => Thrown e w.

Definition read {A} (f : world -> A) : js A := fun w => Done (f w) w.

Definition write (f : world -> world) : js unit := fun w => Done tt (f w).

Declare Scope js_scope.
Delimit Scope js_scope with js.
Notation "x <- m ;; k" := (bind m (fun x => k))
  (at level 61, m at next level, right associativity) : js_scope.
Notation "m ;; k" := (bind m (fun _ => k))
  (at level 61, right associativity) : js_scope.
Open Scope js_scope.

(** The world a method leaves behind, however it ended. *)
Definition after {A} (r : result A) : world :=
  match r with
  | Done _ w => w
  | Thrown _ w => w
  end.

Definition lift {A} (r : exn + A) : js A :=
  match r with
  | inl e => throw e
  | inr a => ret a
  end.

Definition emit (e : event) : js unit :=
  write (fun w => set_trace (trace w ++ [e]) w).

(** [jQuery.ajax(s)]: the request leaves, the call returns at once. *)
Definition jQuery_ajax (s : settings) : js unit :=
  write (fun w => set_pending (pending w ++ [s]) w);;
  emit (ajax s).

(** [f(args)].  Every call in Model.js sits behind a [typeof] test, for any
    other value the call itself would throw. *)
Definition call (f : value) (args : list value) : js unit :=
  match f with
  | VFunction n => emit (invoke n args)
  | _ => throw (TypeError "call" f)
  end.

Definition is_function (v : value) : bool :=
  String.eqb (typeof v) "function".

(* ================================================================== *)
(** ** The methods of openmdao.Model *)

Module Model.

Definition str (s : string) : value := VData (JStr s).
Definition num (z : Z) : value := VData (JNum (Int z)).

(** [this.addListener] *)
Definition addListener (callback : value) : js unit :=
  write (fun w => set_callbacks (callbacks w ++ [callback]) w).

(** The body of the loop of [updateListeners] for [callbacks[i]]. *)
Definition notify (listener : value) : js unit :=
  if String.eqb (typeof listener) "function"
  then call listener []
  else emit (debug_error
               "Model: listener did not provide a valid callback function!").

(** [for (var i = 0; i < callbacks.length; i++) ...] *)
Fixpoint notify_all (listeners : list value) : js unit :=
  match listeners with
  | [] => ret tt
  | l :: rest => notify l;; notify_all rest
  end.

(** [this.updateListeners] *)
Definition updateListeners : js unit :=
  emit (debug_info "Model: updating listeners:");;
  cs <- read callbacks;;
  notify_all cs.

(** [this.getTypes] *)
Definition getTypes (callback errorHandler : value) : js unit :=
  if negb (String.eqb (typeof callback) "function") then ret tt
  else
    jQuery_ajax {| url := "types"; type_ := None; dataType := Some "xml";
                   data := Some []; success := on_types callback;
                   error := errorHandler |}.

(** [modelJSON != null] *)
Definition not_null (j : json) : bool :=
  match j with
  | JNull => false
  | _ => true
  end.

(** [this.getJSON] *)
Definition getJSON (callback errorHandler : value) : js unit :=
  if negb (String.eqb (typeof callback) "function") then ret tt
  else
    m <- read modelJSON;;
    if not_null m then call callback [VData m]
    else
      jQuery_ajax {| url := "model.json"; type_ := None;
                     dataType := Some "json"; data := Some [];
                     success := on_json callback; error := errorHandler |}.

(** One round of the loop of [getObject]:
    [if (typeof obj[tok] !== "undefined") obj = obj[tok]
     else obj = obj["py/state"][tok]] *)
Definition descend (env : host) (obj : value) (tok : string)
  : exn + value :=
  match member env obj tok with
  | inl e => inl e
  | inr v =>
      if negb (String.eqb (typeof v) "undefined") then inr v
      else match member env obj "py/state" with
           | inl e => inl e
           | inr st => member env st tok
           end
  end.

(** [for (i=0;i<len;i++) ...] over [tokens] *)
Fixpoint walk (env : host) (tokens : list string) (obj : value)
  : exn + value :=
  match tokens with
  | [] => inr obj
  | tok :: rest =>
      match descend env obj tok with
      | inl e => inl e
      | inr obj' => walk env rest obj'
      end
  end.

(** [this.getObject], run in the environment [env] *)
Definition getObject (env : host) (pathname : string)
  (callback errorHandler : value) : js unit :=
  if negb (String.eqb (typeof callback) "function") then ret tt
  else
    m <- read modelJSON;;
    (if negb (not_null m) then getJSON VUndefined VUndefined else ret tt);;
    obj <- read modelJSON;;
    obj <- (if (0 <? String.length pathname)%nat
            then lift (walk env (Str.split "."%char pathname) (VData obj))
            else ret (VData obj));;
    call callback [obj].

(** [this.addComponent] *)
Definition addComponent (typepath name x y : value) : js unit :=
  write (set_modelJSON JNull);;
  let x := if negb (String.eqb (typeof x) "number") then num 1 else x in
  let y := if negb (String.eqb (typeof y) "number") then num 1 else y in
  jQuery_ajax {| url := "add"; type_ := Some "POST"; dataType := None;
                 data := Some [("type", typepath); ("name", name);
                               ("x", x); ("y", y)];
                 success := on_updateListeners; error := VUndefined |}.

(** [this.issueCommand] *)
Definition issueCommand (cmd callback errorHandler : value) : js unit :=
  write (set_modelJSON JNull);;
  jQuery_ajax {| url := "command"; type_ := Some "POST"; dataType := None;
                 data := Some [("command", cmd)];
                 success := on_command callback; error := errorHandler |}.

(** [this.setFolder] *)
Definition setFolder (folder : value) : js unit :=
  jQuery_ajax {| url := "folder"; type_ := Some "POST"; dataType := None;
                 data := Some [("folder", folder)];
                 success := on_updateListeners; error := VUndefined |}.

(** [this.getFiles] *)
Definition getFiles (callback errorHandler : value) : js unit :=
  if negb (String.eqb (typeof callback) "function") then ret tt
  else
    jQuery_ajax {| url := "files.json"; type_ := None;
                   dataType := Some "json"; data := Some [];
                   success := on_caller callback; error := errorHandler |}.

(** [this.getFile] *)
Definition getFile (filepath callback errorHandler : value) : js unit :=
  if negb (String.eqb (typeof callback) "function") then ret tt
  else
    jQuery_ajax {| url := "file"; type_ := Some "GET";
                   dataType := Some "text"; data := Some [("file", filepath)];
                   success := on_caller callback; error := errorHandler |}.

(** [this.setFile] *)
Definition setFile (filepath contents errorHandler : value) : js unit :=
  jQuery_ajax {| url := "file"; type_ := Some "POST"; dataType := None;
                 data := Some [("filename", filepath);
                               ("contents", contents)];
                 success := on_updateListeners; error := errorHandler |}.

(** [this.createFolder] *)
Definition createFolder (folderpath : value) : js unit :=
  jQuery_ajax {| url := "file"; type_ := Some "POST"; dataType := None;
                 data := Some [("filename", folderpath);
                               ("isFolder", VData (JBool true))];
                 success := on_updateListeners; error := VUndefined |}.

(** [this.removeFile] *)
Definition removeFile (filepath : value) : js unit :=
  jQuery_ajax {| url := "remove"; type_ := Some "POST";
                 dataType := Some "text"; data := Some [("file", filepath)];
                 success := on_updateListeners; error := VUndefined |}.

(** The [path] of [importFile]:
    [filepath.replace(/.py/g,'').replace(/\\/g,'.').replace(/\//g,'.')] *)
Definition package_notation (filepath : string) : string :=
  Str.replace_char "/"%char "."
    (Str.replace_char "\"%char "."
       (Str.remove_any_py filepath)).

(** [this.importFile].  Its last statement, [that.updateListeners] without
    parentheses, evaluates the property and calls nothing. *)
Definition importFile (filepath : string) : js unit :=
  let path := package_notation filepath in
  issueCommand (str ("from " ++ path ++ " import *")) VUndefined VUndefined.

(** The [path] of [execFile]: backslashes become slashes, then
    [if (path[0] == '/') path = path.substring(1,path.length)] *)
Definition relative_path (filepath : string) : string :=
  let path := Str.replace_char "\"%char "/" filepath in
  match Str.at_ path 0 with
  | Some c =>
      if String.eqb c "/" then Str.substring path 1 (String.length path)
      else path
  | None => path
  end.

(** [this.execFile] *)
Definition execFile (filepath : string) : js unit :=
  write (set_modelJSON JNull);;
  let path := relative_path filepath in
  jQuery_ajax {| url := "exec"; type_ := Some "POST"; dataType := None;
                 data := Some [("filename", str path)];
                 success := on_updateListeners; error := VUndefined |}.

(** [this.getOutput] *)
Definition getOutput (callback errorHandler : value) : js unit :=
  jQuery_ajax {| url := "output"; type_ := None; dataType := None;
                 data := None; success := on_output callback;
                 error := errorHandler |}.

(** [this.getFolder] *)
Definition getFolder : js unit :=
  jQuery_ajax {| url := "folder"; type_ := None; dataType := None;
                 data := None; success := on_folder; error := VUndefined |}.

(** [this.uploadFile] *)
Definition uploadFile : js unit :=
  emit (popupWindow "/upload" "Add File" 150 400).

(** [this.exit] *)
Definition exit : js unit :=
  jQuery_ajax {| url := "exit"; type_ := Some "GET"; dataType := None;
                 data := None; success := on_nothing; error := VUndefined |}.

(** [if (folderpath) name = folderpath+'/'+name] of [newFile] and
    [newFolder], for a [folderpath] that is a string or is not given: only a
    string that is not empty counts as true. *)
Definition path_in (folderpath : option string) (name : string) : string :=
  match folderpath with
  | Some folder =>
      if negb (String.eqb folder "") then folder ++ "/" ++ name else name
  | None => name
  end.

Definition quotes : string :=
  String "034"%char (String "034"%char (String "034"%char EmptyString)).

Definition newline : string := String "010"%char EmptyString.

(** [this.newFile], from the point where [openmdao.Util.promptForName] calls
    back with [name]: the function [newFile] hands to the prompt. *)
Definition newFile (folderpath : option string) (name : string) : js unit :=
  let name := path_in folderpath name in
  let contents :=
    quotes ++ newline ++ "   " ++ name ++ newline ++ quotes
           ++ newline ++ newline in
  setFile (str name) (str contents) VUndefined.

(** [this.newFolder], from the point where the prompt calls back with
    [name].  [createFolder] has one parameter: the second argument of the
    call, [that.updateListeners], lands nowhere. *)
Definition newFolder (folderpath : option string) (name : string) : js unit :=
  let name := path_in folderpath name in
  createFolder (str name).

End Model.

(* ================================================================== *)
(** ** Answers of the server *)

(** What the transport hands to a [success] handler, after the conversion
    the request's [dataType] asks for. *)
Inductive response : Type :=
| as_json (j : json)
| as_xml (doc : nat)
| as_text (s : string).

Definition body (r : response) : value :=
  match r with
  | as_json j => VData j
  | as_xml d => VXml d
  | as_text s => VData (JStr s)
  end.

(** A request with a [dataType] succeeds only with an answer of that type;
    without one the transport takes what comes. *)
Definition accepts (dt : option string) (r : response) : bool :=
  match dt, r with
  | None, _ => true
  | Some dt, as_json _ => String.eqb dt "json"
  | Some dt, as_xml _ => String.eqb dt "xml"
  | Some dt, as_text _ => String.eqb dt "text"
  end.

(** Running a [success] handler on an answer.  The handler receives the
    answer as its first argument; the status text and the request object the
    transport passes behind it are left out.  [on_json] only travels with
    [dataType: 'json'], so it only ever sees parsed JSON: there is no run of
    it on anything else. *)
Definition run_success (h : handler) (r : response) : option (js unit) :=
  match h with
  | on_types callback =>
      Some (write (set_types (VJQuery "Types" (body r)));;
            t <- read types;;
            call callback [t])
  | on_json callback =>
      match r with
      | as_json json =>
          Some (write (set_modelJSON json);;
                m <- read modelJSON;;
                call callback [VData m])
      | _ => None
      end
  | on_command callback =>
      Some ((if String.eqb (typeof callback) "function"
             then call callback [body r] else ret tt);;
            Model.updateListeners)
  | on_caller callback => Some (call callback [body r])
  | on_updateListeners => Some Model.updateListeners
  | on_output callback =>
      Some (if String.eqb (typeof callback) "function"
            then call callback [body r] else ret tt)
  | on_folder => Some (ret tt)
  | on_nothing => Some (ret tt)
  end.

Fixpoint drop_nth {A} (i : nat) (l : list A) : list A :=
  match l, i with
  | [], _ => []
  | _ :: rest, O => rest
  | a :: rest, S i' => a :: drop_nth i' rest
  end.

(** The [i]-th outstanding request is answered with [r]: it leaves the queue
    and its [success] handler runs.  [None] when there is no such request or
    the answer is not of the type the request asked for. *)
Definition respond (i : nat) (r : response) (w : world)
  : option (result unit) :=
  match nth_error (pending w) i with
  | Some s =>
      if accepts (dataType s) r
      then match run_success (success s) r with
           | Some handler => Some (handler (set_pending
                                              (drop_nth i (pending w)) w))
           | None => None
           end
      else None
  | None => None
  end.

(* ================================================================== *)
(** ** Reading traces *)

(** How often [jQuery.ajax] was called for [u]. *)
Fixpoint requests_to (u : string) (t : list event) : nat :=
  match t with
  | [] => 0
  | ajax s :: rest =>
      if String.eqb (url s) u then S (requests_to u rest)
      else requests_to u rest
  | _ :: rest => requests_to u rest
  end.

(** The calls of callers' functions, in order. *)
Fixpoint invocations (t : list event) : list (nat * list value) :=
  match t with
  | [] => []
  | invoke f args :: rest => (f, args) :: invocations rest
  | _ :: rest => invocations rest
  end.

(** The errors written to the console, in order. *)
Fixpoint errors (t : list event) : list string :=
  match t with
  | [] => []
  | debug_error msg :: rest => msg :: errors rest
  | _ :: rest => errors rest
  end.

(* ================================================================== *)
(** ** Vocabulary of the properties *)

(** *** Listeners *)

(** The functions among registry entries, and the other entries. *)
Fixpoint functions (entries : list value) : list nat :=
  match entries with
  | [] => []
  | VFunction f :: rest => f :: functions rest
  | _ :: rest => functions rest
  end.

Definition not_callable (entries : list value) : list value :=
  filter (fun v => negb (is_function v)) entries.

(** What one registry entry contributes to the trace of a notification. *)
Definition reaction (entry : value) : event :=
  match entry with
  | VFunction f => invoke f []
  | _ => debug_error
           "Model: listener did not provide a valid callback function!"
  end.

(** Everything one notification adds to the trace. *)
Definition notification (entries : list value) : list event :=
  debug_info "Model: updating listeners:" :: map reaction entries.

(** A run of [addListener] calls. *)
Definition register (entries : list value) (w : world) : world :=
  fold_left (fun w entry => after (Model.addListener entry w)) entries w.

(** *** Requests *)

Definition types_request (callback errorHandler : value) : settings :=
  {| url := "types"; type_ := None; dataType := Some "xml";
     data := Some []; success := on_types callback; error := errorHandler |}.

Definition json_request (callback errorHandler : value) : settings :=
  {| url := "model.json"; type_ := None; dataType := Some "json";
     data := Some []; success := on_json callback; error := errorHandler |}.

Definition add_request (typepath name x y : value) : settings :=
  {| url := "add"; type_ := Some "POST"; dataType := None;
     data := Some [("type", typepath); ("name", name); ("x", x); ("y", y)];
     success := on_updateListeners; error := VUndefined |}.

Definition command_request (cmd callback errorHandler : value) : settings :=
  {| url := "command"; type_ := Some "POST"; dataType := None;
     data := Some [("command", cmd)];
     success := on_command callback; error := errorHandler |}.

Definition exec_request (path : string) : settings :=
  {| url := "exec"; type_ := Some "POST"; dataType := None;
     data := Some [("filename", Model.str path)];
     success := on_updateListeners; error := VUndefined |}.

(** *** addComponent and issueCommand *)

(** The coordinate [addComponent] is to send for the argument [v]. *)
Definition coordinate (v : value) : value :=
  match v with
  | VData (JNum _) => v
  | _ => Model.num 1
  end.

(** What the answer to a command does with the callback of the command. *)
Definition callback_call (callback : value) (txt : value) : list event :=
  match callback with
  | VFunction f => [invoke f [txt]]
  | _ => []
  end.

(** *** Mutating operations *)

(** The calls that change something on the server. *)
Inductive mutation : Type :=
| m_addComponent (typepath name x y : value)
| m_issueCommand (cmd callback errorHandler : value)
| m_setFile (filepath contents errorHandler : value)
| m_removeFile (filepath : value)
| m_execFile (filepath : string)
| m_createFolder (folderpath : value)
| m_setFolder (folder : value).

Definition perform (m : mutation) : js unit :=
  match m with
  | m_addComponent typepath name x y => Model.addComponent typepath name x y
  | m_issueCommand cmd callback errorHandler =>
      Model.issueCommand cmd callback errorHandler
  | m_setFile filepath contents errorHandler =>
      Model.setFile filepath contents errorHandler
  | m_removeFile filepath => Model.removeFile filepath
  | m_execFile filepath => Model.execFile filepath
  | m_createFolder folderpath => Model.createFolder folderpath
  | m_setFolder folder => Model.setFolder folder
  end.

(** The methods whose body starts with [modelJSON = null]. *)
Definition invalidates (m : mutation) : bool :=
  match m with
  | m_addComponent _ _ _ _ => true
  | m_issueCommand _ _ _ => true
  | m_execFile _ => true
  | m_setFile _ _ _ => false
  | m_removeFile _ => false
  | m_createFolder _ => false
  | m_setFolder _ => false
  end.

Definition cached_snapshot : json :=
  JObj [("top", JObj [("py/state", JObj [])])].

(** *** Paths into the snapshot *)

(** Resolution of a path as the specification words it, for a fallback key
    [fb], in the environment [env]: segment by segment, through the member
    of that name when the node has one, otherwise through the member of that
    name of the node's [fb] member. *)
Inductive path_resolves (env : host) (fb : string)
  : value -> list string -> value -> Prop :=
| resolves_end (node : value) :
    path_resolves env fb node [] node
| resolves_direct (node : value) (seg : string) (v : value)
    (rest : list string) (r : value) :
    member env node seg = inr v ->
    v <> VUndefined ->
    path_resolves env fb v rest r ->
    path_resolves env fb node (seg :: rest) r
| resolves_fallback (node : value) (seg : string)
    (st v : value) (rest : list string) (r : value) :
    member env node seg = inr VUndefined ->
    member env node fb = inr st ->
    member env st seg = inr v ->
    path_resolves env fb v rest r ->
    path_resolves env fb node (seg :: rest) r.

(** An environment to run examples in: one whose prototypes hold no
    property.  (The built-in properties of [Object.prototype] and of the
    other prototypes can be deleted, and here they have been.)  A walk
    through snapshot data then meets nothing but data and [undefined], and
    [foreign] is never asked. *)
Definition bare : host :=
  {| inherited := fun _ _ => inr VUndefined;
     foreign := fun _ _ => inr VUndefined |}.

(** [v] is data or [undefined]. *)
Definition plain (v : value) : Prop :=
  match v with
  | VUndefined => True
  | VData _ => True
  | _ => False
  end.

(** [{a:{b:{c:42}}}] *)
Definition snapshot_direct : json :=
  JObj [("a", JObj [("b", JObj [("c", JNum (Int 42))])])].

(** [{a:{"state":{b:{c:42}}}}] *)
Definition snapshot_under_state : json :=
  JObj [("a", JObj [("state", JObj [("b", JObj [("c", JNum (Int 42))])])])].

(** [{a:{"py/state":{b:{c:42}}}}] *)
Definition snapshot_under_py_state : json :=
  JObj [("a",
         JObj [("py/state", JObj [("b", JObj [("c", JNum (Int 42))])])])].

(** *** File paths *)

Fixpoint occurs (c : ascii) (s : string) : bool :=
  match s with
  | EmptyString => false
  | String a rest => Ascii.eqb a c || occurs c rest
  end.

(** Dropping one leading slash, if there is one. *)
Definition strip_leading_slash (s : string) : string :=
  match s with
  | EmptyString => s
  | String a rest => if Ascii.eqb a "/"%char then rest else s
  end.

(** Dropping the extension as the specification words it: a final ".py"
    goes, the rest of the path stays. *)
Fixpoint drop_py_extension (s : string) : string :=
  match s with
  | EmptyString => EmptyString
  | String a rest =>
      if String.eqb s ".py" then EmptyString
      else String a (drop_py_extension rest)
  end.

(** The dotted module path of a file as the specification words it. *)
Definition module_path (filepath : string) : string :=
  Str.replace_char "/"%char "."
    (Str.replace_char "\"%char "." (drop_py_extension filepath)).

(** "py" somewhere in [s]. *)
Fixpoint has_py (s : string) : bool :=
  match s with
  | EmptyString => false
  | String a rest =>
      match rest with
      | String b _ => (Ascii.eqb a "p"%char && Ascii.eqb b "y"%char)
                      || has_py rest
      | EmptyString => false
      end
  end.

(** *** Runs of a Model *)

(** A call of one of the methods of the object, with its arguments
    ([newFile] and [newFolder] together with the name the prompt
    delivers). *)
Inductive method_call : Type :=
| call_addListener (callback : value)
| call_updateListeners
| call_getTypes (callback errorHandler : value)
| call_getJSON (callback errorHandler : value)
| call_getObject (pathname : string) (callback errorHandler : value)
| call_addComponent (typepath name x y : value)
| call_issueCommand (cmd callback errorHandler : value)
| call_setFolder (folder : value)
| call_getFiles (callback errorHandler : value)
| call_getFile (filepath callback errorHandler : value)
| call_setFile (filepath contents errorHandler : value)
| call_createFolder (folderpath : value)
| call_removeFile (filepath : value)
| call_importFile (filepath : string)
| call_execFile (filepath : string)
| call_newFile (folderpath : option string) (name : string)
| call_newFolder (folderpath : option string) (name : string)
| call_getOutput (callback errorHandler : value)
| call_getFolder
| call_uploadFile
| call_exit.

Definition invoke_method (env : host) (c : method_call) : js unit :=
  match c with
  | call_addListener callback => Model.addListener callback
  | call_updateListeners => Model.updateListeners
  | call_getTypes callback errorHandler => Model.getTypes callback errorHandler
  | call_getJSON callback errorHandler => Model.getJSON callback errorHandler
  | call_getObject pathname callback errorHandler =>
      Model.getObject env pathname callback errorHandler
  | call_addComponent typepath name x y =>
      Model.addComponent typepath name x y
  | call_issueCommand cmd callback errorHandler =>
      Model.issueCommand cmd callback errorHandler
  | call_setFolder folder => Model.setFolder folder
  | call_getFiles callback errorHandler => Model.getFiles callback errorHandler
  | call_getFile filepath callback errorHandler =>
      Model.getFile filepath callback errorHandler
  | call_setFile filepath contents errorHandler =>
      Model.setFile filepath contents errorHandler
  | call_createFolder folderpath => Model.createFolder folderpath
  | call_removeFile filepath => Model.removeFile filepath
  | call_importFile filepath => Model.importFile filepath
  | call_execFile filepath => Model.execFile filepath
  | call_newFile folderpath name => Model.newFile folderpath name
  | call_newFolder folderpath name => Model.newFolder folderpath name
  | call_getOutput callback errorHandler =>
      Model.getOutput callback errorHandler
  | call_getFolder => Model.getFolder
  | call_uploadFile => Model.uploadFile
  | call_exit => Model.exit
  end.

(** What happens to a Model over time: its methods are called and answers
    to its outstanding requests come in, in any order. *)
Inductive step : Type :=
| calls (c : method_call)
| answers (i : nat) (r : response).

(** An answer to a request that is not outstanding, or of the wrong type,
    does not reach the Model.  A method that throws leaves the world it had
    reached. *)
Definition step_world (env : host) (s : step) (w : world) : world :=
  match s with
  | calls c => after (invoke_method env c w)
  | answers i r =>
      match respond i r w with
      | Some res => after res
      | None => w
      end
  end.

Definition run (env : host) (steps : list step) (w : world) : world :=
  fold_left (fun w s => step_world env s w) steps w.

(** The request of [setFile]. *)
Definition file_request (filepath contents errorHandler : value) : settings :=
  {| url := "file"; type_ := Some "POST"; dataType := None;
     data := Some [("filename", filepath); ("contents", contents)];
     success := on_updateListeners; error := errorHandler |}.

(** The request of [createFolder]. *)
Definition folder_request (folderpath : value) : settings :=
  {| url := "file"; type_ := Some "POST"; dataType := None;
     data := Some [("filename", folderpath);
                   ("isFolder", VData (JBool true))];
     success := on_updateListeners; error := VUndefined |}.

(** The requests of [getFiles] and [getFile]. *)
Definition files_request (callback errorHandler : value) : settings :=
  {| url := "files.json"; type_ := None; dataType := Some "json";
     data := Some []; success := on_caller callback; error := errorHandler |}.

Definition getFile_request (filepath callback errorHandler : value)
  : settings :=
  {| url := "file"; type_ := Some "GET"; dataType := Some "text";
     data := Some [("file", filepath)];
     success := on_caller callback; error := errorHandler |}.

(** Both path separators turned into dots. *)
Definition dotted (s : string) : string :=
  Str.replace_char "/"%char "." (Str.replace_char "\"%char "." s).

(** A backslash turned into a slash, any other character as it is. *)
Definition to_slash (a : ascii) : ascii :=
  if Ascii.eqb a "\"%char then "/"%char else a.

(** [s] begins with a slash. *)
Definition leading_slash (s : string) : bool :=
  match s with
  | String a _ => Ascii.eqb a "/"%char
  | EmptyString => false
  end.


(** What the answer to a mutating call does before it notifies. *)
Definition answer_callback (m : mutation) (txt : value) : list event :=
  match m with
  | m_issueCommand _ callback _ => callback_call callback txt
  | _ => []
  end.

(** The [success] entry of the request of a mutating call. *)
Definition success_of (m : mutation) : handler :=
  match m with
  | m_issueCommand _ callback _ => on_command callback
  | _ => on_updateListeners
  end.

(** *** What a piece of JavaScript leaves alone *)

(** [m] takes every world to one that is [R]-related to it, however it
    ends. *)
Definition stable {A} (R : world -> world -> Prop) (m : js A) : Prop :=
  forall w, R w (after (m w)).

(** The registry is as before. *)
Definition same_registry (w w' : world) : Prop :=
  callbacks w' = callbacks w.

(** The entries the [addListener] calls of a run hand in, in order. *)
Fixpoint registered (steps : list step) : list value :=
  match steps with
  | [] => []
  | calls (call_addListener callback) :: rest => callback :: registered rest
  | _ :: rest => registered rest
  end.

(** The catalog is as before, and the snapshot cache is as before or
    empty. *)
Definition caches_not_filled (w w' : world) : Prop :=
  types w' = types w
  /\ (modelJSON w' = modelJSON w \/ modelJSON w' = JNull).

(* ================================================================== *)
(** ** Basic facts *)

Ltac unfold_js :=
  unfold jQuery_ajax, emit, call, lift, bind, ret, read, write, throw, after.

Lemma world_eta (w : world) :
  mkWorld (callbacks w) (modelJSON w) (types w) (pending w) (trace w) = w.
Proof. destruct w; reflexivity. Qed.

Lemma set_trace_same (w : world) : set_trace (trace w ++ []) w = w.
Proof. unfold set_trace. rewrite app_nil_r. apply world_eta. Qed.

Lemma set_trace_twice (t1 t2 : list event) (w : world) :
  set_trace t2 (set_trace t1 w) = set_trace t2 w.
Proof. reflexivity. Qed.

Lemma is_function_false (v : value) :
  typeof v <> "function" -> String.eqb (typeof v) "function" = false.
Proof. intros H. now apply String.eqb_neq. Qed.

Lemma notify_run (entry : value) (w : world) :
  Model.notify entry w = Done tt (set_trace (trace w ++ [reaction entry]) w).
Proof.
  unfold Model.notify.
  destruct entry as [| j | f | d | sel ctx | h]; try reflexivity.
  destruct j; reflexivity.
Qed.

Lemma notify_all_run (entries : list value) : forall w,
  Model.notify_all entries w
  = Done tt (set_trace (trace w ++ map reaction entries) w).
Proof.
  induction entries as [| e rest IH]; intros w; simpl.
  - unfold ret. now rewrite set_trace_same.
  - unfold bind. rewrite notify_run, IH. simpl.
    rewrite set_trace_twice, <- app_assoc. reflexivity.
Qed.

Lemma updateListeners_run (w : world) :
  Model.updateListeners w
  = Done tt (set_trace (trace w ++ notification (callbacks w)) w).
Proof.
  unfold Model.updateListeners. unfold_js.
  rewrite notify_all_run. simpl.
  rewrite set_trace_twice, <- app_assoc. reflexivity.
Qed.

Lemma register_run (entries : list value) : forall w,
  register entries w = set_callbacks (callbacks w ++ entries) w.
Proof.
  unfold register.
  induction entries as [| e rest IH]; intros w; simpl.
  - unfold set_callbacks. rewrite app_nil_r. now rewrite world_eta.
  - rewrite IH. unfold Model.addListener, write, after, set_callbacks. simpl.
    now rewrite <- app_assoc.
Qed.

Lemma requests_to_app (u : string) (t1 t2 : list event) :
  requests_to u (t1 ++ t2) = (requests_to u t1 + requests_to u t2)%nat.
Proof.
  induction t1 as [| e t1 IH]; simpl; [reflexivity |].
  destruct e; simpl; try assumption.
  destruct (String.eqb (url s) u); simpl; now rewrite IH.
Qed.

Lemma invocations_reactions (entries : list value) :
  invocations (map reaction entries)
  = map (fun f => (f, [])) (functions entries).
Proof.
  induction entries as [| e rest IH]; simpl; [reflexivity |].
  destruct e as [| j | f | d | sel ctx | h]; simpl; now rewrite IH.
Qed.

Lemma errors_reactions (entries : list value) :
  List.length (errors (map reaction entries))
  = List.length (not_callable entries).
Proof.
  unfold not_callable.
  induction entries as [| e rest IH]; simpl; [reflexivity |].
  destruct e as [| j | f | d | sel ctx | h]; simpl; try now rewrite IH.
  destruct j; simpl; now rewrite IH.
Qed.

(* ================================================================== *)
(** ** Listeners *)

(** C3.  After any run of [addListener] registrations, one
    [updateListeners] call goes through the registry once, in registration
    order: an entry that is a function is called with no arguments, any other
    entry costs one error on the console and the loop goes on.  So the calls
    made are exactly the registered functions, each once per registration
    and in order, and there are as many errors as entries that are not
    callable. *)
Theorem updateListeners_each_once_in_order
  (w0 : world) (entries : list value) :
  let registry := (callbacks w0 ++ entries)%list in
  exists w',
    Model.updateListeners (register entries w0) = Done tt w'
    /\ callbacks w' = registry
    /\ trace w'
       = (trace w0
          ++ debug_info "Model: updating listeners:"
             :: map reaction registry)%list
    /\ invocations (map reaction registry)
       = map (fun f => (f, [])) (functions registry)
    /\ List.length (errors (map reaction registry))
       = List.length (not_callable registry).
Proof.
  intros registry.
  rewrite register_run, updateListeners_run.
  eexists. split; [reflexivity |].
  repeat split.
  - apply invocations_reactions.
  - apply errors_reactions.
Qed.

(* ================================================================== *)
(** ** Reads without a callback *)

(** C9.  [getTypes], [getJSON], [getObject], [getFiles] and [getFile] test
    their callback first: when it is not a function the method returns at
    once and the world is the one it found (no request, both caches and the
    console as before). *)
Theorem reads_without_callback_do_nothing
  (callback : value) (w : world)
  (Hcb : typeof callback <> "function") :
  (forall errorHandler,
      Model.getTypes callback errorHandler w = Done tt w)
  /\ (forall errorHandler,
      Model.getJSON callback errorHandler w = Done tt w)
  /\ (forall env pathname errorHandler,
      Model.getObject env pathname callback errorHandler w = Done tt w)
  /\ (forall errorHandler,
      Model.getFiles callback errorHandler w = Done tt w)
  /\ (forall filepath errorHandler,
      Model.getFile filepath callback errorHandler w = Done tt w).
Proof.
  apply is_function_false in Hcb.
  unfold Model.getTypes, Model.getJSON, Model.getObject, Model.getFiles,
    Model.getFile.
  rewrite Hcb. simpl.
  repeat split.
Qed.

Lemma reads_without_callback_do_nothing_witness :
  typeof VUndefined <> "function"
  /\ Model.getTypes VUndefined VUndefined new_Model = Done tt new_Model
  /\ Model.getJSON VUndefined VUndefined new_Model = Done tt new_Model
  /\ Model.getObject bare "a.b" VUndefined VUndefined new_Model
     = Done tt new_Model
  /\ Model.getFiles VUndefined VUndefined new_Model = Done tt new_Model
  /\ Model.getFile (Model.str "a.py") VUndefined VUndefined new_Model
     = Done tt new_Model.
Proof.
  split; [discriminate |].
  destruct (reads_without_callback_do_nothing VUndefined new_Model)
    as (Htypes & Hjson & Hobject & Hfiles & Hfile); [discriminate |].
  exact (conj (Htypes _) (conj (Hjson _) (conj (Hobject _ _ _)
           (conj (Hfiles _) (Hfile _ _))))).
Defined.

(* ================================================================== *)
(** ** addComponent *)

Lemma coordinate_typeof (v : value) :
  (if negb (String.eqb (typeof v) "number") then Model.num 1 else v)
  = coordinate v.
Proof.
  destruct v as [| j | f | d | sel ctx | h]; try reflexivity.
  destruct j; reflexivity.
Qed.

Lemma coordinate_cases (v : value) :
  typeof v = "number" /\ coordinate v = v
  \/ typeof v <> "number" /\ coordinate v = Model.num 1.
Proof.
  destruct v as [| j | f | d | sel ctx | h];
    try (right; split; [discriminate | reflexivity]).
  destruct j; try (right; split; [discriminate | reflexivity]).
  left. split; reflexivity.
Qed.

(** C8.  [addComponent] sends [x] and [y] as they are when they are numbers
    and sends 1 in the place of each one that is not. *)
Theorem addComponent_defaults_coordinates
  (typepath name x y : value) (w : world) :
  let r := add_request typepath name (coordinate x) (coordinate y) in
  Model.addComponent typepath name x y w
  = Done tt (mkWorld (callbacks w) JNull (types w)
               (pending w ++ [r]) (trace w ++ [ajax r]))
  /\ (typeof x = "number" /\ coordinate x = x
      \/ typeof x <> "number" /\ coordinate x = Model.num 1)
  /\ (typeof y = "number" /\ coordinate y = y
      \/ typeof y <> "number" /\ coordinate y = Model.num 1).
Proof.
  intros r. split; [| split].
  - unfold Model.addComponent. rewrite !coordinate_typeof. reflexivity.
  - apply coordinate_cases.
  - apply coordinate_cases.
Qed.

(* ================================================================== *)
(** ** issueCommand *)

Lemma nth_error_last {A} (l : list A) (a : A) :
  nth_error (l ++ [a]) (List.length l) = Some a.
Proof. induction l as [| b l IH]; simpl; [reflexivity | exact IH]. Qed.

Lemma drop_nth_last {A} (l : list A) (a : A) :
  drop_nth (List.length l) (l ++ [a]) = l.
Proof. induction l as [| b l IH]; simpl; [reflexivity | now rewrite IH]. Qed.

Lemma on_command_run (callback : value) (r : response) :
  exists handler,
    run_success (on_command callback) r = Some handler
    /\ forall w,
        handler w
        = Done tt (set_trace (trace w ++ callback_call callback (body r)
                                ++ notification (callbacks w)) w).
Proof.
  eexists. split; [reflexivity |]. intros w. unfold bind.
  destruct callback as [| j | f | d | sel ctx | h];
    try (simpl; unfold ret; rewrite updateListeners_run; reflexivity).
  - destruct j; simpl; unfold ret; rewrite updateListeners_run; reflexivity.
  - simpl. unfold emit, write. rewrite updateListeners_run. simpl.
    rewrite set_trace_twice, <- app_assoc. reflexivity.
Qed.

(** C10.  [issueCommand] clears the model cache and sends the command
    whatever its callback is.  When the answer comes, the callback is called
    with it if (and only if) it is a function, and after that the listeners
    are notified, in both cases. *)
Theorem issueCommand_sends_then_notifies
  (cmd callback errorHandler : value) (w : world) (r : response) :
  let q := command_request cmd callback errorHandler in
  let sent := mkWorld (callbacks w) JNull (types w)
                (pending w ++ [q]) (trace w ++ [ajax q]) in
  Model.issueCommand cmd callback errorHandler w = Done tt sent
  /\ respond (List.length (pending w)) r sent
     = Some (Done tt
               (mkWorld (callbacks w) JNull (types w) (pending w)
                  (trace w ++ [ajax q]
                     ++ callback_call callback (body r)
                     ++ debug_info "Model: updating listeners:"
                        :: map reaction (callbacks w))))
  /\ ((exists f, callback = VFunction f
                 /\ callback_call callback (body r) = [invoke f [body r]])
      \/ (typeof callback <> "function"
          /\ callback_call callback (body r) = [])).
Proof.
  intros q sent. split; [reflexivity |]. split.
  - unfold respond, sent. simpl pending.
    rewrite nth_error_last, drop_nth_last. simpl accepts. cbv iota.
    simpl success.
    destruct (on_command_run callback r) as (handler & -> & Hrun).
    rewrite Hrun. unfold set_trace, set_pending.
    simpl. rewrite <- app_assoc. reflexivity.
  - destruct callback as [| j | f | d | sel ctx | h];
      try (right; split; [discriminate | reflexivity]).
    + right. split; [destruct j; discriminate | reflexivity].
    + left. exists f. split; reflexivity.
Qed.

(* ================================================================== *)
(** ** execFile *)

Lemma substring_whole (s : string) :
  String.substring 0 (String.length s) s = s.
Proof. induction s as [| a s IH]; simpl; [reflexivity | now rewrite IH]. Qed.

Lemma substring_tail (a : ascii) (s : string) :
  Str.substring (String a s) 1 (String.length (String a s)) = s.
Proof.
  unfold Str.substring. cbn [String.length]. cbv zeta.
  rewrite Nat.min_id.
  assert (Hmin : Nat.min 1 (S (String.length s)) = 1%nat) by lia.
  rewrite Hmin, Hmin.
  assert (Hmax : (Nat.max 1 (S (String.length s)) - 1)%nat = String.length s)
    by lia.
  rewrite Hmax. cbn [String.substring]. apply substring_whole.
Qed.

Lemma relative_path_strips (filepath : string) :
  Model.relative_path filepath
  = strip_leading_slash (Str.replace_char "\"%char "/" filepath).
Proof.
  unfold Model.relative_path, strip_leading_slash.
  destruct (Str.replace_char "\"%char "/" filepath) as [| a rest];
    [reflexivity |].
  unfold Str.at_. cbn [String.get].
  rewrite substring_tail.
  cbn [String.eqb]. destruct (Ascii.eqb a "/"%char); reflexivity.
Qed.

Lemma replace_char_removes (c d : ascii) (s : string) :
  Ascii.eqb d c = false ->
  occurs c (Str.replace_char c (String d EmptyString) s) = false.
Proof.
  intros Hdc.
  induction s as [| a s IH]; simpl; [reflexivity |].
  destruct (Ascii.eqb a c) eqn:Hac; simpl.
  - now rewrite Hdc.
  - now rewrite Hac.
Qed.

Lemma strip_leading_slash_occurs (c : ascii) (s : string) :
  occurs c s = false -> occurs c (strip_leading_slash s) = false.
Proof.
  destruct s as [| a rest]; simpl; [easy |].
  intros H. apply orb_false_iff in H as [Ha Hrest].
  destruct (Ascii.eqb a "/"%char); simpl; [assumption |].
  now rewrite Ha.
Qed.

Lemma replace_char_length (c d : ascii) (s : string) :
  String.length (Str.replace_char c (String d EmptyString) s)
  = String.length s.
Proof.
  induction s as [| a s IH]; simpl; [reflexivity |].
  destruct (Ascii.eqb a c); simpl; now rewrite IH.
Qed.

Lemma replace_char_get (c d : ascii) (s : string) : forall i,
  String.get i (Str.replace_char c (String d EmptyString) s)
  = option_map (fun a => if Ascii.eqb a c then d else a) (String.get i s).
Proof.
  induction s as [| a s IH]; intros i; simpl; [reflexivity |].
  destruct (Ascii.eqb a c) eqn:Hac; simpl;
    (destruct i as [| i']; simpl; [now rewrite Hac | apply IH]).
Qed.

(** C7.  [execFile] turns every backslash of the path into a slash and
    leaves every other character where it is, drops one leading slash from
    the result if it has one, and sends the execution request with that
    filename; for "/a/b.py" the filename is "a/b.py". *)
Theorem execFile_sends_relative_path (filepath : string) (w : world) :
  (exists normal,
      String.length normal = String.length filepath
      /\ (forall i, String.get i normal
                    = option_map to_slash (String.get i filepath))
      /\ Model.execFile filepath w
         = Done tt (mkWorld (callbacks w) JNull (types w)
                      (pending w
                         ++ [exec_request (strip_leading_slash normal)])
                      (trace w
                         ++ [ajax (exec_request
                                     (strip_leading_slash normal))]))
      /\ occurs "\"%char (strip_leading_slash normal) = false)
  /\ Model.execFile "/a/b.py" w
     = Done tt (mkWorld (callbacks w) JNull (types w)
                  (pending w ++ [exec_request "a/b.py"])
                  (trace w ++ [ajax (exec_request "a/b.py")]))
  /\ Model.execFile "\a\b.py" w
     = Done tt (mkWorld (callbacks w) JNull (types w)
                  (pending w ++ [exec_request "a/b.py"])
                  (trace w ++ [ajax (exec_request "a/b.py")])).
Proof.
  split; [| split; reflexivity].
  exists (Str.replace_char "\"%char "/" filepath).
  split; [apply replace_char_length |].
  split; [intros i; apply replace_char_get |].
  split.
  - unfold Model.execFile. rewrite relative_path_strips. reflexivity.
  - apply strip_leading_slash_occurs.
    now apply (replace_char_removes "\"%char "/"%char).
Qed.

(* ================================================================== *)
(** ** Mutating operations and the model cache *)

(** [getJSON] with a function for a callback: the cached snapshot goes to
    the callback, and only without one a request leaves. *)
Lemma getJSON_run (f : nat) (errorHandler : value) (w : world) :
  Model.getJSON (VFunction f) errorHandler w
  = if Model.not_null (modelJSON w)
    then Done tt (set_trace (trace w ++ [invoke f [VData (modelJSON w)]]) w)
    else Done tt (mkWorld (callbacks w) (modelJSON w) (types w)
                    (pending w ++ [json_request (VFunction f) errorHandler])
                    (trace w ++ [ajax (json_request (VFunction f)
                                         errorHandler)])).
Proof.
  unfold Model.getJSON. simpl. unfold bind, read.
  destruct (Model.not_null (modelJSON w)); reflexivity.
Qed.

Lemma perform_run (m : mutation) (w : world) :
  exists q,
    perform m w
    = Done tt (mkWorld (callbacks w)
                 (if invalidates m then JNull else modelJSON w)
                 (types w) (pending w ++ [q]) (trace w ++ [ajax q])).
Proof.
  destruct m; cbn [perform invalidates].
  - unfold Model.addComponent. rewrite !coordinate_typeof.
    eexists. reflexivity.
  - eexists. reflexivity.
  - eexists. unfold Model.setFile, jQuery_ajax, emit, write, bind.
    now rewrite <- (world_eta w) at 1.
  - eexists. unfold Model.removeFile, jQuery_ajax, emit, write, bind.
    now rewrite <- (world_eta w) at 1.
  - exists (exec_request (Model.relative_path filepath)). reflexivity.
  - eexists. unfold Model.createFolder, jQuery_ajax, emit, write, bind.
    now rewrite <- (world_eta w) at 1.
  - eexists. unfold Model.setFolder, jQuery_ajax, emit, write, bind.
    now rewrite <- (world_eta w) at 1.
Qed.

(** C1, refuted as stated: with a snapshot in the cache, [setFile] sends its
    request and leaves the cache alone, and the [getJSON] that follows hands
    the cached snapshot to its callback without asking the server. *)
Lemma setFile_keeps_model_cache :
  let w := set_modelJSON cached_snapshot new_Model in
  let w' := after (perform
                     (m_setFile (Model.str "a.py") (Model.str "pass")
                        VUndefined) w) in
  let w'' := after (Model.getJSON (VFunction 0) VUndefined w') in
  modelJSON w' = cached_snapshot
  /\ modelJSON w' <> JNull
  /\ requests_to "model.json" (trace w'') = 0%nat
  /\ invocations (trace w'') = [(0%nat, [VData cached_snapshot])].
Proof. repeat split. discriminate. Qed.

(** C1, amended.  [addComponent], [issueCommand] and [execFile] clear the
    model cache as they send their request, and a [getJSON] right after them
    sends a new request for the snapshot and calls nothing back yet.
    [setFile], [removeFile], [createFolder] and [setFolder] send their
    request and leave the model cache as it is, so a [getJSON] right after
    them answers from the cache when there is a snapshot in it.  None of the
    seven touches the type catalog or the listeners. *)
Theorem mutations_and_model_cache
  (m : mutation) (w : world) (f : nat) (errorHandler : value) :
  let w' := after (perform m w) in
  let q := json_request (VFunction f) errorHandler in
  (exists sent,
      perform m w = Done tt w'
      /\ pending w' = (pending w ++ [sent])%list
      /\ trace w' = (trace w ++ [ajax sent])%list)
  /\ callbacks w' = callbacks w
  /\ types w' = types w
  /\ modelJSON w' = (if invalidates m then JNull else modelJSON w)
  /\ Model.getJSON (VFunction f) errorHandler w'
     = (if invalidates m || negb (Model.not_null (modelJSON w))
        then Done tt (mkWorld (callbacks w') (modelJSON w') (types w')
                        (pending w' ++ [q]) (trace w' ++ [ajax q]))
        else Done tt (set_trace
                        (trace w' ++ [invoke f [VData (modelJSON w)]]) w')).
Proof.
  intros w' q. subst w'.
  destruct (perform_run m w) as [sent Hrun]. rewrite Hrun.
  cbn [after].
  split; [exists sent; repeat split |].
  split; [reflexivity |]. split; [reflexivity |]. split; [reflexivity |].
  rewrite getJSON_run. cbn [modelJSON].
  destruct (invalidates m); [reflexivity |].
  destruct (modelJSON w); reflexivity.
Qed.

(* ================================================================== *)
(** ** getTypes *)

(** [getTypes] never reads [types]: with a function for a callback it sends
    the request, whatever the catalog variable holds. *)
Lemma getTypes_run (f : nat) (errorHandler : value) (w : world) :
  Model.getTypes (VFunction f) errorHandler w
  = Done tt (mkWorld (callbacks w) (modelJSON w) (types w)
               (pending w ++ [types_request (VFunction f) errorHandler])
               (trace w ++ [ajax (types_request (VFunction f)
                                    errorHandler)])).
Proof. reflexivity. Qed.

Lemma getTypes_always_requests (f : nat) (errorHandler : value) (w : world) :
  requests_to "types"
    (trace (after (Model.getTypes (VFunction f) errorHandler w)))
  = S (requests_to "types" (trace w)).
Proof.
  rewrite getTypes_run. cbn [after trace].
  rewrite requests_to_app. simpl. lia.
Qed.

(** C2, on the code: a new Model, [getTypes(f0)], the server's answer (the
    catalog lands in [types] and goes to [f0]), then [getTypes(f1)].  The
    second call sends a second request for the catalog and does not call
    [f1] from the cache. *)
Theorem getTypes_twice_requests_twice :
  let catalog := VJQuery "Types" (VXml 0) in
  let w1 := after (Model.getTypes (VFunction 0) VUndefined new_Model) in
  exists w2,
    respond 0 (as_xml 0) w1 = Some (Done tt w2)
    /\ types w2 = catalog
    /\ pending w2 = []
    /\ trace w2 = [ajax (types_request (VFunction 0) VUndefined);
                   invoke 0 [catalog]]
    /\ let w3 := after (Model.getTypes (VFunction 1) VUndefined w2) in
       requests_to "types" (trace w3) = 2%nat
       /\ pending w3 = [types_request (VFunction 1) VUndefined]
       /\ invocations (trace w3) = [(0%nat, [catalog])].
Proof.
  intros catalog w1. eexists. split; [reflexivity |].
  repeat split.
Qed.

(* ================================================================== *)
(** ** getObject *)

Lemma descend_cases (env : host) (obj : value) (tok : string) :
  Model.descend env obj tok
  = match member env obj tok with
    | inl e => inl e
    | inr VUndefined =>
        match member env obj "py/state" with
        | inl e => inl e
        | inr st => member env st tok
        end
    | inr v => inr v
    end.
Proof.
  unfold Model.descend.
  destruct (member env obj tok) as [e | v]; [reflexivity |].
  destruct v as [| j | f | d | sel ctx | h]; try reflexivity.
  destruct j; reflexivity.
Qed.

(** The loop of [getObject] computes the resolution through "py/state". *)
Lemma walk_resolves (env : host) (tokens : list string) :
  forall (obj r : value),
    Model.walk env tokens obj = inr r
    <-> path_resolves env "py/state" obj tokens r.
Proof.
  induction tokens as [| tok rest IH]; intros obj r; simpl.
  - split.
    + intros H. injection H as <-. constructor.
    + intros H. inversion H; subst. reflexivity.
  - rewrite descend_cases. split.
    + destruct (member env obj tok) as [e | v] eqn:Hm; [discriminate |].
      destruct v as [| j | f | d | sel ctx | h];
        try (intros H; apply IH in H;
             eapply resolves_direct; [exact Hm | discriminate | exact H]).
      destruct (member env obj "py/state") as [e | st] eqn:Hst;
        [discriminate |].
      destruct (member env st tok) as [e | v] eqn:Hv; [discriminate |].
      intros H. apply IH in H. eapply resolves_fallback; eassumption.
    + intros H.
      inversion H
        as [| ? ? v ? ? Hm Hv Hrest | ? ? st v ? ? Hm Hst Hv Hrest]; subst.
      * rewrite Hm.
        destruct v as [| j | f | d | sel ctx | h];
          try (now apply IH).
        now contradiction Hv.
      * rewrite Hm, Hst, Hv. now apply IH.
Qed.

(** In the environment [bare] a walk through data stays in data, and what
    [foreign] would answer plays no part in it. *)
Lemma member_bare (g : value -> string -> exn + value)
  (obj : value) (k : string) :
  plain obj ->
  member (mkHost (inherited bare) g) obj k = member bare obj k
  /\ (forall v, member bare obj k = inr v -> plain v).
Proof.
  destruct obj as [| j | f | d | sel ctx | h]; try contradiction; intros _.
  - split; [reflexivity | discriminate].
  - split; [destruct j; reflexivity |].
    intros v. destruct j; cbn [member]; try discriminate;
      (destruct (own _ k); cbn [bare inherited];
       intros H; injection H as <-; exact I).
Qed.

Lemma walk_bare (g : value -> string -> exn + value)
  (tokens : list string) : forall obj,
  plain obj ->
  Model.walk (mkHost (inherited bare) g) tokens obj
  = Model.walk bare tokens obj
  /\ (forall r, Model.walk bare tokens obj = inr r -> plain r).
Proof.
  induction tokens as [| tok rest IH]; intros obj Hobj; cbn [Model.walk].
  - split; [reflexivity |]. intros r H. now injection H as <-.
  - assert (Hstep : Model.descend (mkHost (inherited bare) g) obj tok
                    = Model.descend bare obj tok
                    /\ forall v, Model.descend bare obj tok = inr v
                                 -> plain v).
    { rewrite !descend_cases.
      destruct (member_bare g obj tok Hobj) as [-> Hv].
      destruct (member bare obj tok) as [e | v]; [split; easy |].
      specialize (Hv v eq_refl).
      destruct v as [| j | f | d | sel ctx | h]; try contradiction.
      - destruct (member_bare g obj "py/state" Hobj) as [-> Hst].
        destruct (member bare obj "py/state") as [e | st]; [split; easy |].
        specialize (Hst st eq_refl).
        destruct (member_bare g st tok Hst) as [-> Hv']. now split.
      - split; [reflexivity |]. intros v H. now injection H as <-. }
    destruct Hstep as [-> Hplain].
    destruct (Model.descend bare obj tok) as [e | obj'];
      [split; easy |].
    apply IH. now apply Hplain.
Qed.

Lemma getObject_run
  (env : host) (pathname : string) (f : nat) (errorHandler : value)
  (w : world) :
  Model.not_null (modelJSON w) = true ->
  Model.getObject env pathname (VFunction f) errorHandler w
  = if (0 <? String.length pathname)%nat
    then match Model.walk env (Str.split "."%char pathname)
                 (VData (modelJSON w)) with
         | inr r => Done tt (set_trace (trace w ++ [invoke f [r]]) w)
         | inl e => Thrown e w
         end
    else Done tt (set_trace
                    (trace w ++ [invoke f [VData (modelJSON w)]]) w).
Proof.
  intros Hcached.
  unfold Model.getObject. simpl. unfold bind, read. rewrite Hcached. simpl.
  unfold ret.
  destruct (0 <? String.length pathname)%nat; [| reflexivity].
  destruct (Model.walk _ _ _) as [e | r]; reflexivity.
Qed.

(** C4, refuted as stated: on the snapshot that keeps [b] under the key
    "state", the path "a.b.c" does resolve in the specification's sense with
    "state" for the fallback key, but [getObject] looks under "py/state",
    finds nothing, throws on reading [b] of [undefined] and never calls the
    callback.  (Run where no prototype has a property [b] or "py/state".) *)
Lemma getObject_does_not_look_under_state :
  let w := set_modelJSON snapshot_under_state new_Model in
  path_resolves bare "state" (VData snapshot_under_state) ["a"; "b"; "c"]
    (Model.num 42)
  /\ Model.getObject bare "a.b.c" (VFunction 0) VUndefined w
     = Thrown (TypeError "b" VUndefined) w
  /\ Model.getObject bare "a.b.c" (VFunction 0) VUndefined w
     <> Done tt (set_trace [invoke 0 [Model.num 42]] w).
Proof.
  split; [| split; [reflexivity | discriminate]].
  eapply resolves_direct; [reflexivity | discriminate |].
  eapply resolves_fallback; [reflexivity | reflexivity | reflexivity |].
  eapply resolves_direct; [reflexivity | discriminate |].
  apply resolves_end.
Qed.

(** C4, amended.  With a snapshot in the cache, [getObject] walks the dotted
    pathname segment by segment, at each segment falling back to the
    "py/state" member of the current node when the read of the segment from
    the node gives [undefined] (no own member of that name and none
    inherited), and hands what it reaches to the callback. *)
Theorem getObject_walks_with_py_state_fallback
  (env : host) (pathname : string) (f : nat) (errorHandler : value)
  (w : world) (r : value)
  (Hcached : Model.not_null (modelJSON w) = true)
  (Hpath : (0 < String.length pathname)%nat)
  (Hres : path_resolves env "py/state" (VData (modelJSON w))
            (Str.split "."%char pathname) r) :
  Model.getObject env pathname (VFunction f) errorHandler w
  = Done tt (set_trace (trace w ++ [invoke f [r]]) w).
Proof.
  rewrite getObject_run by assumption.
  apply Nat.ltb_lt in Hpath. rewrite Hpath.
  apply walk_resolves in Hres. now rewrite Hres.
Qed.

Lemma resolves_abc_direct :
  path_resolves bare "py/state" (VData snapshot_direct) ["a"; "b"; "c"]
    (Model.num 42).
Proof. apply walk_resolves. reflexivity. Qed.

Lemma resolves_abc_under_py_state :
  path_resolves bare "py/state" (VData snapshot_under_py_state)
    ["a"; "b"; "c"] (Model.num 42).
Proof. apply walk_resolves. reflexivity. Qed.

(** [getObject("a.b.c")] delivers 42 on [{a:{b:{c:42}}}] and on
    [{a:{"py/state":{b:{c:42}}}}]. *)
Lemma getObject_walks_with_py_state_fallback_witness :
  Model.getObject bare "a.b.c" (VFunction 0) VUndefined
    (set_modelJSON snapshot_direct new_Model)
  = Done tt (set_trace [invoke 0 [Model.num 42]]
               (set_modelJSON snapshot_direct new_Model))
  /\ Model.getObject bare "a.b.c" (VFunction 0) VUndefined
       (set_modelJSON snapshot_under_py_state new_Model)
     = Done tt (set_trace [invoke 0 [Model.num 42]]
                  (set_modelJSON snapshot_under_py_state new_Model)).
Proof.
  split.
  - apply (getObject_walks_with_py_state_fallback bare "a.b.c" 0 VUndefined
             (set_modelJSON snapshot_direct new_Model) (Model.num 42)).
    + reflexivity.
    + simpl. lia.
    + exact resolves_abc_direct.
  - apply (getObject_walks_with_py_state_fallback bare "a.b.c" 0 VUndefined
             (set_modelJSON snapshot_under_py_state new_Model)
             (Model.num 42)).
    + reflexivity.
    + simpl. lia.
    + exact resolves_abc_under_py_state.
Defined.

Lemma split_first (c : ascii) (s : string) :
  exists tok rest, Str.split c s = tok :: rest.
Proof.
  induction s as [| a s (tok & rest & IH)]; simpl.
  - now exists EmptyString, [].
  - destruct (Ascii.eqb a c).
    + now exists EmptyString, (Str.split c s).
    + rewrite IH. now exists (String a tok), rest.
Qed.

(** Without a snapshot in the cache [getObject] calls [that.getJSON()]
    with no callback, which returns at its first test: nothing is requested
    and [modelJSON] stays [null].  An empty pathname then delivers [null];
    any other pathname throws on reading its first segment of [null]. *)
Lemma getObject_cache_absent
  (env : host) (pathname : string) (f : nat) (errorHandler : value)
  (w : world) :
  let w0 := set_modelJSON JNull w in
  (pathname = "" /\
   Model.getObject env pathname (VFunction f) errorHandler w0
   = Done tt (set_trace (trace w ++ [invoke f [null]]) w0))
  \/ (exists tok,
         Model.getObject env pathname (VFunction f) errorHandler w0
         = Thrown (TypeError tok null) w0).
Proof.
  intros w0. destruct pathname as [| a s].
  - left. split; reflexivity.
  - right. destruct (split_first "."%char (String a s)) as (tok & rest & Hs).
    exists tok. unfold Model.getObject. simpl typeof. simpl negb.
    cbv iota. unfold bind, read. simpl modelJSON. simpl Model.not_null.
    simpl negb. cbv iota. simpl Model.getJSON. unfold ret.
    cbn [modelJSON w0 set_modelJSON].
    cbn [String.length Nat.ltb Nat.leb]. rewrite Hs. reflexivity.
Qed.

(** C5, on the code: [getObject("a.b.c", f0)] on a new Model, in any
    environment.  No request is sent, the cache stays empty, reading [a] of
    [null] throws and [f0] is never called. *)
Theorem getObject_without_cache_fetches_nothing (env : host) :
  let r := Model.getObject env "a.b.c" (VFunction 0) VUndefined new_Model in
  r = Thrown (TypeError "a" null) new_Model
  /\ requests_to "model.json" (trace (after r)) = 0%nat
  /\ pending (after r) = []
  /\ modelJSON (after r) = JNull
  /\ invocations (trace (after r)) = [].
Proof. repeat split. Qed.

(* ================================================================== *)
(** ** importFile *)

(** [importFile] hands its command to [issueCommand] without a callback. *)
Lemma importFile_run (filepath : string) (w : world) :
  let q := command_request
             (Model.str ("from " ++ Model.package_notation filepath
                                 ++ " import *"))
             VUndefined VUndefined in
  Model.importFile filepath w
  = Done tt (mkWorld (callbacks w) JNull (types w)
               (pending w ++ [q]) (trace w ++ [ajax q])).
Proof. reflexivity. Qed.

(** Where the code and the specification agree: a path made of a stem in
    which "py" does not occur, followed by the extension. *)
Lemma remove_any_py_stem (stem : string) :
  has_py stem = false -> Str.remove_any_py (stem ++ ".py") = stem.
Proof.
  induction stem as [| a rest IH]; [reflexivity |].
  intros Hpy.
  destruct rest as [| b rest'].
  - simpl. rewrite andb_false_r. reflexivity.
  - cbn [has_py] in Hpy. fold has_py in Hpy.
    apply orb_false_iff in Hpy as [Hab Hrest].
    specialize (IH Hrest).
    change ((String a (String b rest') ++ ".py")%string)
      with (String a (String b rest' ++ ".py"))%string.
    cbn [Str.remove_any_py]. fold Str.remove_any_py.
    rewrite IH.
    destruct rest' as [| c rest''].
    + cbn [append]. simpl (Ascii.eqb "." "y").
      rewrite andb_false_r. reflexivity.
    + cbn [append].
      cbn [has_py] in Hrest. fold has_py in Hrest.
      apply orb_false_iff in Hrest as [Hbc _].
      rewrite <- andb_assoc, Hbc, andb_false_r. reflexivity.
Qed.

Lemma drop_py_extension_stem (stem : string) :
  drop_py_extension (stem ++ ".py") = stem.
Proof.
  induction stem as [| a rest IH]; [reflexivity |].
  change ((String a rest ++ ".py")%string)
    with (String a (rest ++ ".py"))%string.
  cbn [drop_py_extension]. fold drop_py_extension. rewrite IH.
  destruct (String.eqb_spec (String a (rest ++ ".py")) ".py") as [Heq | _];
    [| reflexivity].
  exfalso. injection Heq as _ Heq.
  destruct rest as [| b [| c [| d rest']]]; discriminate.
Qed.

Lemma package_notation_stem (stem : string) :
  has_py stem = false ->
  Model.package_notation (stem ++ ".py") = module_path (stem ++ ".py").
Proof.
  intros Hpy. unfold Model.package_notation, module_path.
  now rewrite remove_any_py_stem, drop_py_extension_stem.
Qed.

(** C6, on the code: the pattern [/.py/g] takes "py" with any character in
    front of it, anywhere in the path.  For "pkg/sub/mod.py" that is the
    extension alone and the command is "from pkg.sub.mod import *"; for
    "scipy/opt.py" it also takes "ipy" out of the folder name, and the
    command names the module "sc.opt" where the path's module is
    "scipy.opt". *)
Theorem importFile_drops_py_anywhere :
  Model.package_notation "pkg/sub/mod.py" = module_path "pkg/sub/mod.py"
  /\ pending (after (Model.importFile "pkg/sub/mod.py" new_Model))
     = [command_request (Model.str "from pkg.sub.mod import *")
          VUndefined VUndefined]
  /\ module_path "scipy/opt.py" = "scipy.opt"
  /\ Model.package_notation "scipy/opt.py" = "sc.opt"
  /\ pending (after (Model.importFile "scipy/opt.py" new_Model))
     = [command_request (Model.str "from sc.opt import *")
          VUndefined VUndefined].
Proof. repeat split. Qed.

(* ================================================================== *)
(** ** The snapshot cache over a request and its answer *)

Ltac run_js :=
  cbv [bind ret write read call emit jQuery_ajax after
       set_modelJSON set_trace set_types set_pending set_callbacks
       callbacks modelJSON types pending trace].

Lemma invocations_app (t1 t2 : list event) :
  invocations (t1 ++ t2) = (invocations t1 ++ invocations t2)%list.
Proof.
  induction t1 as [| e t1 IH]; simpl; [reflexivity |].
  destruct e; simpl; now rewrite IH.
Qed.

Lemma nth_error_middle {A} (l l' : list A) (a : A) :
  nth_error (l ++ a :: l') (List.length l) = Some a.
Proof. induction l as [| b l IH]; simpl; [reflexivity | exact IH]. Qed.

Lemma drop_nth_middle {A} (l l' : list A) (a : A) :
  drop_nth (List.length l) (l ++ a :: l') = (l ++ l')%list.
Proof. induction l as [| b l IH]; simpl; [reflexivity | now rewrite IH]. Qed.

(** The answer to a request that sits in the queue behind [before]. *)
Lemma respond_middle
  (cs : list value) (mj : json) (ty : value) (before behind : list settings)
  (tr : list event) (q : settings) (r : response) (h : js unit) :
  accepts (dataType q) r = true ->
  run_success (success q) r = Some h ->
  respond (List.length before) r
    (mkWorld cs mj ty (before ++ q :: behind) tr)
  = Some (h (mkWorld cs mj ty (before ++ behind) tr)).
Proof.
  intros Hacc Hrun. unfold respond. cbn [pending].
  rewrite nth_error_middle, Hacc, Hrun, drop_nth_middle. reflexivity.
Qed.

Lemma getJSON_asks (f : nat) (errorHandler : value) (w : world) :
  Model.getJSON (VFunction f) errorHandler (set_modelJSON JNull w)
  = Done tt (mkWorld (callbacks w) JNull (types w)
               (pending w ++ [json_request (VFunction f) errorHandler])
               (trace w ++ [ajax (json_request (VFunction f)
                                    errorHandler)])).
Proof. reflexivity. Qed.

(** X1.  Without a snapshot in the cache, [getJSON] sends the request and
    calls nothing back; the answer, when it is not [null], lands in the
    cache and goes to the callback; the next [getJSON] hands the same
    snapshot to its callback at once and sends nothing. *)
Theorem getJSON_fetch_then_cached
  (w : world) (f g : nat) (errorHandler errorHandler' : value) (j : json)
  (Hj : Model.not_null j = true) :
  let q := json_request (VFunction f) errorHandler in
  let asked := after (Model.getJSON (VFunction f) errorHandler
                        (set_modelJSON JNull w)) in
  let answered := mkWorld (callbacks w) j (types w) (pending w)
                    (trace w ++ [ajax q; invoke f [VData j]]) in
  pending asked = (pending w ++ [q])%list
  /\ trace asked = (trace w ++ [ajax q])%list
  /\ respond (List.length (pending w)) (as_json j) asked
     = Some (Done tt answered)
  /\ Model.getJSON (VFunction g) errorHandler' answered
     = Done tt (set_trace (trace answered ++ [invoke g [VData j]]) answered).
Proof.
  intros q asked answered. subst asked. rewrite getJSON_asks. cbn [after].
  split; [reflexivity |]. split; [reflexivity |]. split.
  - erewrite (respond_middle _ _ _ (pending w) []);
      [| reflexivity | reflexivity].
    run_js. rewrite app_nil_r, <- app_assoc. reflexivity.
  - rewrite getJSON_run. unfold answered at 1. cbn [modelJSON].
    rewrite Hj. reflexivity.
Qed.

Lemma getJSON_fetch_then_cached_witness :
  Model.not_null snapshot_direct = true
  /\ respond 0 (as_json snapshot_direct)
       (after (Model.getJSON (VFunction 0) VUndefined
                 (set_modelJSON JNull new_Model)))
     = Some (Done tt
               (mkWorld [] snapshot_direct null []
                  [ajax (json_request (VFunction 0) VUndefined);
                   invoke 0 [VData snapshot_direct]])).
Proof.
  split; [reflexivity |].
  exact (proj1 (proj2 (proj2
           (getJSON_fetch_then_cached new_Model 0 1 VUndefined VUndefined
              snapshot_direct eq_refl)))).
Defined.

(** X2.  When the server answers the snapshot request with JSON [null],
    the callback gets [null] and the cache holds [null], which is how the
    Model writes "no snapshot": the next [getJSON] asks the server again. *)
Theorem getJSON_null_answer_is_not_cached
  (w : world) (f g : nat) (errorHandler errorHandler' : value) :
  let q := json_request (VFunction f) errorHandler in
  let q' := json_request (VFunction g) errorHandler' in
  let asked := after (Model.getJSON (VFunction f) errorHandler
                        (set_modelJSON JNull w)) in
  let answered := mkWorld (callbacks w) JNull (types w) (pending w)
                    (trace w ++ [ajax q; invoke f [null]]) in
  respond (List.length (pending w)) (as_json JNull) asked
  = Some (Done tt answered)
  /\ Model.getJSON (VFunction g) errorHandler' answered
     = Done tt (mkWorld (callbacks w) JNull (types w) (pending w ++ [q'])
                  (trace answered ++ [ajax q'])).
Proof.
  intros q q' asked answered. subst asked. rewrite getJSON_asks. cbn [after].
  split.
  - erewrite (respond_middle _ _ _ (pending w) []);
      [| reflexivity | reflexivity].
    run_js. rewrite app_nil_r, <- app_assoc. reflexivity.
  - rewrite getJSON_run. reflexivity.
Qed.

(** X3.  Clearing the cache does not cancel a snapshot request that is
    already under way.  With [getJSON] waiting for its answer, any of the
    mutating calls leaves the cache empty; the answer to the earlier request
    then fills the cache all the same, and the next [getJSON] is served from
    it without a request. *)
Theorem answer_under_way_refills_cache
  (w : world) (m : mutation) (f g : nat)
  (errorHandler errorHandler' : value) (j : json)
  (Hj : Model.not_null j = true) :
  let asked := after (Model.getJSON (VFunction f) errorHandler
                        (set_modelJSON JNull w)) in
  let changed := after (perform m asked) in
  modelJSON changed = JNull
  /\ exists refilled,
      respond (List.length (pending w)) (as_json j) changed
      = Some (Done tt refilled)
      /\ modelJSON refilled = j
      /\ invocations (trace refilled)
         = (invocations (trace changed) ++ [(f, [VData j])])%list
      /\ Model.getJSON (VFunction g) errorHandler' refilled
         = Done tt (set_trace (trace refilled ++ [invoke g [VData j]])
                      refilled).
Proof.
  intros asked changed. subst changed asked.
  rewrite getJSON_asks. cbn [after].
  destruct (perform_run m
              (mkWorld (callbacks w) JNull (types w)
                 (pending w ++ [json_request (VFunction f) errorHandler])
                 (trace w ++ [ajax (json_request (VFunction f)
                                      errorHandler)])))
    as [qm Hrun].
  rewrite Hrun. cbn [after callbacks modelJSON types pending trace].
  split; [now destruct (invalidates m) |].
  rewrite <- (app_assoc (pending w)). cbn [app].
  erewrite respond_middle; [| reflexivity | reflexivity].
  eexists. split; [reflexivity |].
  run_js.
  split; [reflexivity |]. split.
  - rewrite !invocations_app. reflexivity.
  - rewrite getJSON_run. cbn [modelJSON]. rewrite Hj. reflexivity.
Qed.

Lemma answer_under_way_refills_cache_witness :
  Model.not_null snapshot_direct = true
  /\ exists refilled,
      respond 0 (as_json snapshot_direct)
        (after (perform (m_execFile "run.py")
                  (after (Model.getJSON (VFunction 0) VUndefined
                            (set_modelJSON JNull new_Model)))))
      = Some (Done tt refilled)
      /\ modelJSON refilled = snapshot_direct.
Proof.
  split; [reflexivity |].
  destruct (answer_under_way_refills_cache new_Model (m_execFile "run.py")
              0 1 VUndefined VUndefined snapshot_direct eq_refl)
    as [_ (refilled & Hanswer & Hcache & _)].
  exists refilled. split; [exact Hanswer | exact Hcache].
Defined.

(* ================================================================== *)
(** ** getObject at the edges *)

(** [getObject] with a function for a callback, whatever the cache holds:
    the call of [that.getJSON()] in it comes back at once. *)
Lemma getObject_steps
  (env : host) (pathname : string) (f : nat) (errorHandler : value)
  (w : world) :
  Model.getObject env pathname (VFunction f) errorHandler w
  = if (0 <? String.length pathname)%nat
    then match Model.walk env (Str.split "."%char pathname)
                 (VData (modelJSON w)) with
         | inr r => Done tt (set_trace (trace w ++ [invoke f [r]]) w)
         | inl e => Thrown e w
         end
    else Done tt (set_trace
                    (trace w ++ [invoke f [VData (modelJSON w)]]) w).
Proof.
  unfold Model.getObject. simpl. unfold bind, read.
  destruct (Model.not_null (modelJSON w)); simpl; unfold ret;
    (destruct (0 <? String.length pathname)%nat; [| reflexivity]);
    destruct (Model.walk _ _ _) as [e | r]; reflexivity.
Qed.

Lemma walk_app (env : host) (pre post : list string) : forall obj,
  Model.walk env (pre ++ post) obj
  = match Model.walk env pre obj with
    | inl e => inl e
    | inr node => Model.walk env post node
    end.
Proof.
  induction pre as [| tok pre IH]; intros obj; simpl; [reflexivity |].
  destruct (Model.descend env obj tok) as [e | obj'];
    [reflexivity | apply IH].
Qed.

(** A property the node inherits is taken like an own member: where the
    prototypes give the objects of the snapshot a [constructor], say,
    [getObject] hands that to the callback and does not look under
    "py/state". *)
Lemma getObject_inherited_member
  (env : host) (pathname : string) (f : nat) (errorHandler : value)
  (w : world) (pre : list string) (seg : string)
  (ms : list (string * json)) (v : value) :
  (0 < String.length pathname)%nat ->
  Str.split "."%char pathname = (pre ++ [seg])%list ->
  Model.walk env pre (VData (modelJSON w)) = inr (VData (JObj ms)) ->
  lookup seg ms = None ->
  inherited env (JObj ms) seg = inr v ->
  v <> VUndefined ->
  Model.getObject env pathname (VFunction f) errorHandler w
  = Done tt (set_trace (trace w ++ [invoke f [v]]) w).
Proof.
  intros Hpath Hsplit Hnode Hseg Hinh Hv.
  rewrite getObject_steps.
  apply Nat.ltb_lt in Hpath. rewrite Hpath, Hsplit, walk_app, Hnode.
  cbn [Model.walk]. rewrite descend_cases. cbn [member own].
  rewrite Hseg, Hinh.
  destruct v as [| j | n | d | sel ctx | h]; try reflexivity.
  now contradiction Hv.
Qed.


(** X5.  The empty pathname names the whole snapshot: [getObject] hands
    the content of the cache to its callback as it is, and that is [null]
    when there is no snapshot. *)
Theorem getObject_empty_pathname
  (env : host) (f : nat) (errorHandler : value) (w : world) :
  Model.getObject env "" (VFunction f) errorHandler w
  = Done tt (set_trace (trace w ++ [invoke f [VData (modelJSON w)]]) w).
Proof. now rewrite getObject_steps. Qed.

(** X6.  A segment that the node it is looked up in neither has nor
    inherits, in a node that neither has nor inherits a "py/state" member,
    ends [getObject] with a TypeError (the read of the segment from
    [undefined]); the callback is not called and the world stays as it was.
    This holds at any depth of the path. *)
Theorem getObject_missing_segment_throws
  (env : host) (pathname : string) (f : nat) (errorHandler : value)
  (w : world) (pre rest : list string) (seg : string)
  (ms : list (string * json))
  (Hpath : (0 < String.length pathname)%nat)
  (Hsplit : Str.split "."%char pathname = (pre ++ seg :: rest)%list)
  (Hnode : Model.walk env pre (VData (modelJSON w))
           = inr (VData (JObj ms)))
  (Hseg : lookup seg ms = None)
  (Hseg_proto : inherited env (JObj ms) seg = inr VUndefined)
  (Hstate : lookup "py/state" ms = None)
  (Hstate_proto : inherited env (JObj ms) "py/state" = inr VUndefined) :
  Model.getObject env pathname (VFunction f) errorHandler w
  = Thrown (TypeError seg VUndefined) w.
Proof.
  rewrite getObject_steps.
  apply Nat.ltb_lt in Hpath. rewrite Hpath, Hsplit, walk_app, Hnode.
  cbn [Model.walk]. rewrite descend_cases. cbn [member own].
  rewrite Hseg, Hseg_proto, Hstate, Hstate_proto. reflexivity.
Qed.

Lemma getObject_missing_segment_throws_witness :
  (0 < String.length "a.x.c")%nat
  /\ Model.getObject bare "a.x.c" (VFunction 0) VUndefined
       (set_modelJSON snapshot_direct new_Model)
     = Thrown (TypeError "x" VUndefined)
         (set_modelJSON snapshot_direct new_Model).
Proof.
  split; [simpl; lia |].
  apply (getObject_missing_segment_throws bare "a.x.c" 0 VUndefined
           (set_modelJSON snapshot_direct new_Model)
           ["a"] ["c"] "x" [("b", JObj [("c", JNum (Int 42))])]).
  - simpl. lia.
  - reflexivity.
  - reflexivity.
  - reflexivity.
  - reflexivity.
  - reflexivity.
  - reflexivity.
Defined.

(** X7.  A segment that the node neither has nor inherits, and that the
    node's "py/state" object neither has nor inherits, is not an error in
    itself: the walk goes on with [undefined].  As the last segment it makes
    [getObject] call back with [undefined]; followed by another segment it
    ends in a TypeError for that next segment. *)
Theorem getObject_missing_under_py_state
  (env : host) (pathname : string) (f : nat) (errorHandler : value)
  (w : world) (pre rest : list string) (seg : string)
  (ms st : list (string * json))
  (Hpath : (0 < String.length pathname)%nat)
  (Hsplit : Str.split "."%char pathname = (pre ++ seg :: rest)%list)
  (Hnode : Model.walk env pre (VData (modelJSON w))
           = inr (VData (JObj ms)))
  (Hseg : lookup seg ms = None)
  (Hseg_proto : inherited env (JObj ms) seg = inr VUndefined)
  (Hstate : lookup "py/state" ms = Some (JObj st))
  (Hunder : lookup seg st = None)
  (Hunder_proto : inherited env (JObj st) seg = inr VUndefined) :
  Model.getObject env pathname (VFunction f) errorHandler w
  = match rest with
    | [] => Done tt (set_trace (trace w ++ [invoke f [VUndefined]]) w)
    | next :: _ => Thrown (TypeError next VUndefined) w
    end.
Proof.
  rewrite getObject_steps.
  apply Nat.ltb_lt in Hpath. rewrite Hpath, Hsplit, walk_app, Hnode.
  cbn [Model.walk]. rewrite descend_cases. cbn [member own].
  rewrite Hseg, Hseg_proto, Hstate. cbn [member own].
  rewrite Hunder, Hunder_proto.
  destruct rest as [| next rest']; reflexivity.
Qed.

Lemma getObject_missing_under_py_state_witness :
  (0 < String.length "a.x")%nat
  /\ Model.getObject bare "a.x" (VFunction 0) VUndefined
       (set_modelJSON snapshot_under_py_state new_Model)
     = Done tt (set_trace [invoke 0 [VUndefined]]
                  (set_modelJSON snapshot_under_py_state new_Model))
  /\ Model.getObject bare "a.x.c" (VFunction 0) VUndefined
       (set_modelJSON snapshot_under_py_state new_Model)
     = Thrown (TypeError "c" VUndefined)
         (set_modelJSON snapshot_under_py_state new_Model).
Proof.
  split; [simpl; lia |]. split.
  - apply (getObject_missing_under_py_state bare "a.x" 0 VUndefined
             (set_modelJSON snapshot_under_py_state new_Model)
             ["a"] [] "x"
             [("py/state", JObj [("b", JObj [("c", JNum (Int 42))])])]
             [("b", JObj [("c", JNum (Int 42))])]);
      solve [reflexivity | simpl; lia].
  - apply (getObject_missing_under_py_state bare "a.x.c" 0 VUndefined
             (set_modelJSON snapshot_under_py_state new_Model)
             ["a"] ["c"] "x"
             [("py/state", JObj [("b", JObj [("c", JNum (Int 42))])])]
             [("b", JObj [("c", JNum (Int 42))])]);
      solve [reflexivity | simpl; lia].
Defined.

(* ================================================================== *)
(** ** Answers *)

(** The answer to the request a method has just sent. *)
Lemma respond_last
  (cs : list value) (mj : json) (ty : value) (before : list settings)
  (tr : list event) (q : settings) (r : response) (h : js unit) :
  accepts (dataType q) r = true ->
  run_success (success q) r = Some h ->
  respond (List.length before) r (mkWorld cs mj ty (before ++ [q]) tr)
  = Some (h (mkWorld cs mj ty before tr)).
Proof.
  intros Hacc Hrun.
  rewrite (respond_middle cs mj ty before [] tr q r h Hacc Hrun).
  now rewrite app_nil_r.
Qed.

Lemma perform_request (m : mutation) (w : world) :
  exists q,
    perform m w
    = Done tt (mkWorld (callbacks w)
                 (if invalidates m then JNull else modelJSON w)
                 (types w) (pending w ++ [q]) (trace w ++ [ajax q]))
    /\ (forall s, accepts (dataType q) (as_text s) = true)
    /\ success q = success_of m.
Proof.
  destruct m; cbn [perform invalidates success_of].
  - unfold Model.addComponent. rewrite !coordinate_typeof.
    eexists. split; [reflexivity |]. now split.
  - eexists. split; [reflexivity |]. now split.
  - eexists. split.
    + unfold Model.setFile, jQuery_ajax, emit, write, bind.
      now rewrite <- (world_eta w) at 1.
    + now split.
  - eexists. split.
    + unfold Model.removeFile, jQuery_ajax, emit, write, bind.
      now rewrite <- (world_eta w) at 1.
    + now split.
  - exists (exec_request (Model.relative_path filepath)).
    split; [reflexivity |]. now split.
  - eexists. split.
    + unfold Model.createFolder, jQuery_ajax, emit, write, bind.
      now rewrite <- (world_eta w) at 1.
    + now split.
  - eexists. split.
    + unfold Model.setFolder, jQuery_ajax, emit, write, bind.
      now rewrite <- (world_eta w) at 1.
    + now split.
Qed.

Lemma success_of_run (m : mutation) (r : response) :
  exists h,
    run_success (success_of m) r = Some h
    /\ forall w,
        h w = Done tt (set_trace (trace w ++ answer_callback m (body r)
                                    ++ notification (callbacks w)) w).
Proof.
  destruct m; cbn [success_of answer_callback];
    try (exists Model.updateListeners; split; [reflexivity |];
         intros w; apply updateListeners_run).
  apply on_command_run.
Qed.

(** X8.  Each of the mutating calls notifies the listeners when the answer
    to its request comes in, and only then: the answer takes the request
    out of the queue, runs the callback of [issueCommand] if that is what
    was called and the callback is a function, and then goes through the
    registry once.  The answer changes neither cache. *)
Theorem answer_to_mutation_notifies
  (m : mutation) (w : world) (s : string) :
  let sent := after (perform m w) in
  exists answered,
    respond (List.length (pending w)) (as_text s) sent
    = Some (Done tt answered)
    /\ invocations (trace sent) = invocations (trace w)
    /\ callbacks answered = callbacks w
    /\ modelJSON answered = modelJSON sent
    /\ types answered = types w
    /\ pending answered = pending w
    /\ trace answered
       = (trace sent ++ answer_callback m (Model.str s)
            ++ debug_info "Model: updating listeners:"
               :: map reaction (callbacks w))%list.
Proof.
  intros sent. subst sent.
  destruct (perform_request m w) as (q & Hrun & Hacc & Hsucc).
  destruct (success_of_run m (as_text s)) as (h & Hh & Hrun_h).
  rewrite Hrun. cbn [after].
  rewrite <- Hsucc in Hh.
  rewrite (respond_last _ _ _ _ _ q (as_text s) h (Hacc s) Hh), Hrun_h.
  eexists. split; [reflexivity |].
  cbn [trace set_trace callbacks modelJSON types pending].
  rewrite invocations_app. cbn [invocations]. rewrite app_nil_r.
  repeat split.
Qed.

(** X9.  [getFiles] and [getFile] with a function for a callback send their
    request and touch nothing else; the answer goes to the callback and to
    nobody else: the listeners are not notified and both caches stay as
    they were. *)
Theorem file_reads_deliver_to_callback_only
  (w : world) (f : nat) (filepath errorHandler : value)
  (listing : json) (text : string) :
  let qs := files_request (VFunction f) errorHandler in
  let qf := getFile_request filepath (VFunction f) errorHandler in
  let asked q := mkWorld (callbacks w) (modelJSON w) (types w)
                   (pending w ++ [q]) (trace w ++ [ajax q]) in
  let answered q v := mkWorld (callbacks w) (modelJSON w) (types w)
                        (pending w) (trace w ++ [ajax q; invoke f [v]]) in
  Model.getFiles (VFunction f) errorHandler w = Done tt (asked qs)
  /\ respond (List.length (pending w)) (as_json listing) (asked qs)
     = Some (Done tt (answered qs (VData listing)))
  /\ Model.getFile filepath (VFunction f) errorHandler w = Done tt (asked qf)
  /\ respond (List.length (pending w)) (as_text text) (asked qf)
     = Some (Done tt (answered qf (Model.str text))).
Proof.
  intros qs qf asked answered. subst asked answered. cbv beta.
  split; [reflexivity |]. split; [| split; [reflexivity |]].
  - erewrite respond_last; [| reflexivity | reflexivity].
    run_js. rewrite <- app_assoc. reflexivity.
  - erewrite respond_last; [| reflexivity | reflexivity].
    run_js. rewrite <- app_assoc. reflexivity.
Qed.

(** X10.  The answer to a [getTypes] request puts [jQuery("Types", xml)]
    into [types] and hands it to the callback; the snapshot cache and the
    registry stay as they were and the listeners are not notified.  With
    the catalog stored, the next [getTypes] still sends a request. *)
Theorem getTypes_answer_stores_catalog
  (w : world) (f g : nat) (errorHandler errorHandler' : value) (doc : nat) :
  let q := types_request (VFunction f) errorHandler in
  let catalog := VJQuery "Types" (VXml doc) in
  let answered := mkWorld (callbacks w) (modelJSON w) catalog (pending w)
                    (trace w ++ [ajax q; invoke f [catalog]]) in
  respond (List.length (pending w)) (as_xml doc)
    (after (Model.getTypes (VFunction f) errorHandler w))
  = Some (Done tt answered)
  /\ pending (after (Model.getTypes (VFunction g) errorHandler' answered))
     = (pending w ++ [types_request (VFunction g) errorHandler'])%list
  /\ requests_to "types"
       (trace (after (Model.getTypes (VFunction g) errorHandler' answered)))
     = S (S (requests_to "types" (trace w))).
Proof.
  intros q catalog answered. rewrite getTypes_run. cbn [after].
  split; [| split].
  - erewrite respond_last; [| reflexivity | reflexivity].
    run_js. rewrite <- app_assoc. reflexivity.
  - reflexivity.
  - rewrite getTypes_always_requests. unfold answered. cbn [trace].
    rewrite requests_to_app. simpl. lia.
Qed.

(* ================================================================== *)
(** ** What the methods leave alone *)

Section Stable.

Variable R : world -> world -> Prop.
Hypothesis R_refl : forall w, R w w.
Hypothesis R_trans : forall w1 w2 w3, R w1 w2 -> R w2 w3 -> R w1 w3.
Hypothesis R_trace : forall w t, R w (set_trace t w).
Hypothesis R_pending : forall w p, R w (set_pending p w).
Hypothesis R_invalidate : forall w, R w (set_modelJSON JNull w).

Lemma stable_ret {A} (a : A) : stable R (ret a).
Proof. intros w. apply R_refl. Qed.

Lemma stable_read {A} (f : world -> A) : stable R (read f).
Proof. intros w. apply R_refl. Qed.

Lemma stable_throw {A} (e : exn) : stable R (@throw A e).
Proof. intros w. apply R_refl. Qed.

Lemma stable_bind {A B} (m : js A) (k : A -> js B) :
  stable R m -> (forall a, stable R (k a)) -> stable R (bind m k).
Proof.
  intros Hm Hk w. unfold bind. specialize (Hm w).
  destruct (m w) as [a w' | e w']; cbn [after] in *; [| exact Hm].
  eapply R_trans; [exact Hm | apply Hk].
Qed.

Lemma stable_emit (e : event) : stable R (emit e).
Proof. intros w. apply R_trace. Qed.

Lemma stable_call (f : value) (args : list value) : stable R (call f args).
Proof.
  destruct f as [| j | n | d | sel ctx | h];
    try apply stable_throw. apply stable_emit.
Qed.

Lemma stable_ajax (q : settings) : stable R (jQuery_ajax q).
Proof.
  apply stable_bind; [| intros _; apply stable_emit].
  intros w. apply R_pending.
Qed.

Lemma stable_invalidate : stable R (write (set_modelJSON JNull)).
Proof. intros w. apply R_invalidate. Qed.

Lemma stable_notify_all (listeners : list value) :
  stable R (Model.notify_all listeners).
Proof.
  induction listeners as [| l rest IH]; [apply stable_ret |].
  apply stable_bind; [| intros _; exact IH].
  unfold Model.notify.
  destruct (String.eqb (typeof l) "function");
    [apply stable_call | apply stable_emit].
Qed.

Lemma stable_updateListeners : stable R Model.updateListeners.
Proof.
  apply stable_bind; [apply stable_emit | intros _].
  apply stable_bind; [apply stable_read | intros cs].
  apply stable_notify_all.
Qed.

Lemma stable_getJSON (callback errorHandler : value) :
  stable R (Model.getJSON callback errorHandler).
Proof.
  unfold Model.getJSON.
  destruct (negb _); [apply stable_ret |].
  apply stable_bind; [apply stable_read | intros m].
  destruct (Model.not_null m); [apply stable_call | apply stable_ajax].
Qed.

Lemma stable_getObject
  (env : host) (pathname : string) (callback errorHandler : value) :
  stable R (Model.getObject env pathname callback errorHandler).
Proof.
  unfold Model.getObject.
  destruct (negb (String.eqb (typeof callback) "function"));
    [apply stable_ret |].
  apply stable_bind; [apply stable_read | intros m].
  apply stable_bind.
  - destruct (negb (Model.not_null m));
      [apply stable_getJSON | apply stable_ret].
  - intros _. apply stable_bind; [apply stable_read | intros obj].
    apply stable_bind; [| intros r; apply stable_call].
    destruct (0 <? String.length pathname)%nat; [| apply stable_ret].
    unfold lift. destruct (Model.walk _ _ _);
      [apply stable_throw | apply stable_ret].
Qed.

Lemma stable_issueCommand (cmd callback errorHandler : value) :
  stable R (Model.issueCommand cmd callback errorHandler).
Proof.
  apply stable_bind; [apply stable_invalidate | intros _; apply stable_ajax].
Qed.

(** Every method but [addListener]. *)
Lemma stable_method (env : host) (c : method_call) :
  (forall callback, c <> call_addListener callback) ->
  stable R (invoke_method env c).
Proof.
  intros Hc. destruct c; cbn [invoke_method].
  - now contradiction (Hc callback).
  - apply stable_updateListeners.
  - unfold Model.getTypes.
    destruct (negb _); [apply stable_ret | apply stable_ajax].
  - apply stable_getJSON.
  - apply stable_getObject.
  - unfold Model.addComponent.
    apply stable_bind; [apply stable_invalidate | intros _].
    apply stable_ajax.
  - apply stable_issueCommand.
  - apply stable_ajax.
  - unfold Model.getFiles.
    destruct (negb _); [apply stable_ret | apply stable_ajax].
  - unfold Model.getFile.
    destruct (negb _); [apply stable_ret | apply stable_ajax].
  - apply stable_ajax.
  - apply stable_ajax.
  - apply stable_ajax.
  - apply stable_issueCommand.
  - unfold Model.execFile.
    apply stable_bind; [apply stable_invalidate | intros _].
    apply stable_ajax.
  - apply stable_ajax.
  - apply stable_ajax.
  - apply stable_ajax.
  - apply stable_ajax.
  - apply stable_emit.
  - apply stable_ajax.
Qed.

End Stable.

Lemma same_registry_method (env : host) (c : method_call) (w : world) :
  (forall callback, c <> call_addListener callback) ->
  callbacks (after (invoke_method env c w)) = callbacks w.
Proof.
  intros Hc.
  apply (stable_method same_registry); try (intros; reflexivity); [| exact Hc].
  unfold same_registry. intros w1 w2 w3 H12 H23. now rewrite H23.
Qed.

Lemma same_registry_answer
  (env : host) (i : nat) (r : response) (w : world) :
  callbacks (step_world env (answers i r) w) = callbacks w.
Proof.
  unfold step_world, respond.
  destruct (nth_error (pending w) i) as [q |]; [| reflexivity].
  destruct (accepts (dataType q) r); [| reflexivity].
  destruct (success q) as [cb | cb | cb | cb | | cb | |];
    cbn [run_success].
  - destruct cb as [| j | n | d | sel ctx | h]; reflexivity.
  - destruct r as [j | d | s]; [| reflexivity | reflexivity].
    destruct cb as [| j' | n | d | sel ctx | h']; reflexivity.
  - destruct (on_command_run cb r) as (h & Hh & Hrun).
    cbn [run_success] in Hh. injection Hh as <-. now rewrite Hrun.
  - destruct cb as [| j | n | d | sel ctx | h]; reflexivity.
  - now rewrite updateListeners_run.
  - destruct cb as [| j | n | d | sel ctx | h]; try reflexivity.
    destruct j; reflexivity.
  - reflexivity.
  - reflexivity.
Qed.

Lemma step_registry (env : host) (s : step) (w : world) :
  callbacks (step_world env s w) = (callbacks w ++ registered [s])%list.
Proof.
  destruct s as [c | i r].
  - destruct c; cbn [registered];
      try (rewrite app_nil_r; apply same_registry_method; discriminate).
    reflexivity.
  - cbn [registered]. rewrite app_nil_r. apply same_registry_answer.
Qed.

Lemma registered_cons (s : step) (steps : list step) :
  registered (s :: steps) = (registered [s] ++ registered steps)%list.
Proof.
  destruct s as [c | i r]; [destruct c |]; reflexivity.
Qed.

(** X11.  The registry is append-only.  Over any run of calls of the
    methods of the object and answers to its requests, in any order and in
    any environment, the registry is what it was at the start followed by
    the entries the [addListener] calls of the run handed in, in the order
    of the calls: no entry is ever removed, replaced or moved, and nothing
    but [addListener] adds one. *)
Theorem registry_is_append_only
  (env : host) (steps : list step) (w : world) :
  callbacks (run env steps w) = (callbacks w ++ registered steps)%list.
Proof.
  unfold run. revert w.
  induction steps as [| s rest IH]; intros w.
  - cbn. now rewrite app_nil_r.
  - cbn [fold_left].
    rewrite IH, step_registry, (registered_cons s rest).
    now rewrite app_assoc.
Qed.

(** X12.  No method call fills a cache.  Whatever method of the object is
    called with whatever arguments, in whatever environment, the type
    catalog is afterwards what it was, and the
    snapshot cache is what it was or empty: a snapshot or a catalog only
    ever comes in with an answer. *)
Theorem calls_never_fill_caches
  (env : host) (c : method_call) (w : world) :
  let w' := after (invoke_method env c w) in
  types w' = types w
  /\ (modelJSON w' = modelJSON w \/ modelJSON w' = JNull).
Proof.
  intros w'. subst w'.
  destruct c;
    try (apply (stable_method caches_not_filled);
         unfold caches_not_filled;
         [ intros; split; [reflexivity | now left]
         | intros w1 w2 w3 [Ht12 Hm12] [Ht23 Hm23]; split;
           [ now rewrite Ht23
           | destruct Hm23 as [-> | ->]; [exact Hm12 | now right] ]
         | intros; split; [reflexivity | now left]
         | intros; split; [reflexivity | now left]
         | intros; split; [reflexivity | now right]
         | discriminate ]).
  split; [reflexivity | now left].
Qed.

(* ================================================================== *)
(** ** File paths *)

Lemma replace_char_keeps_absent (c d e : ascii) (s : string) :
  Ascii.eqb e c = false ->
  occurs c s = false ->
  occurs c (Str.replace_char d (String e EmptyString) s) = false.
Proof.
  intros Hec.
  induction s as [| a s IH]; simpl; [reflexivity |].
  intros H. apply orb_false_iff in H as [Ha Hs].
  destruct (Ascii.eqb a d); simpl.
  - rewrite Hec. now apply IH.
  - rewrite Ha. now apply IH.
Qed.

Lemma replace_char_absent (c : ascii) (by_ s : string) :
  occurs c s = false -> Str.replace_char c by_ s = s.
Proof.
  induction s as [| a s IH]; simpl; [reflexivity |].
  intros H. apply orb_false_iff in H as [Ha Hs].
  rewrite Ha, IH by assumption. reflexivity.
Qed.

Lemma remove_any_py_absent (s : string) :
  has_py s = false -> Str.remove_any_py s = s.
Proof.
  induction s as [| a rest IH]; [reflexivity |].
  intros Hpy.
  destruct rest as [| b rest']; [reflexivity |].
  cbn [has_py] in Hpy. fold has_py in Hpy.
  apply orb_false_iff in Hpy as [Hab Hrest].
  specialize (IH Hrest).
  destruct rest' as [| c rest''].
  - reflexivity.
  - change (Str.remove_any_py (String a (String b (String c rest''))))
      with (if negb (Str.line_terminator a)
               && Ascii.eqb b "p"%char && Ascii.eqb c "y"%char
            then Str.remove_any_py rest''
            else String a (Str.remove_any_py (String b (String c rest'')))).
    cbn [has_py] in Hrest. fold has_py in Hrest.
    apply orb_false_iff in Hrest as [Hbc _].
    rewrite <- andb_assoc, Hbc, andb_false_r, IH. reflexivity.
Qed.

(** X13.  The module path [importFile] puts into its command never holds
    a slash or a backslash, whatever the file path is. *)
Theorem importFile_command_has_no_separator (filepath : string) (w : world) :
  let path := Model.package_notation filepath in
  let q := command_request (Model.str ("from " ++ path ++ " import *"))
             VUndefined VUndefined in
  Model.importFile filepath w
  = Done tt (mkWorld (callbacks w) JNull (types w)
               (pending w ++ [q]) (trace w ++ [ajax q]))
  /\ occurs "/"%char path = false
  /\ occurs "\"%char path = false.
Proof.
  intros path q. split; [reflexivity |]. split.
  - now apply (replace_char_removes "/"%char "."%char).
  - apply replace_char_keeps_absent; [reflexivity |].
    now apply (replace_char_removes "\"%char "."%char).
Qed.

(** X14.  On a path in which "py" does not occur, [importFile] changes
    nothing but the separators; with the extension ".py" behind such a path,
    the extension goes and nothing else.  These are the paths on which the
    pattern [/.py/g] does what the comment in the source says. *)
Theorem importFile_on_py_free_stem (stem : string) (w : world)
  (Hpy : has_py stem = false) :
  let q := command_request (Model.str ("from " ++ dotted stem ++ " import *"))
             VUndefined VUndefined in
  Model.package_notation stem = dotted stem
  /\ Model.package_notation (stem ++ ".py") = dotted stem
  /\ Model.importFile (stem ++ ".py") w
     = Done tt (mkWorld (callbacks w) JNull (types w)
                  (pending w ++ [q]) (trace w ++ [ajax q])).
Proof.
  intros q.
  assert (Hext : Model.package_notation (stem ++ ".py") = dotted stem).
  { unfold Model.package_notation. now rewrite remove_any_py_stem. }
  split; [| split; [exact Hext |]].
  - unfold Model.package_notation. now rewrite remove_any_py_absent.
  - rewrite importFile_run. cbv zeta. now rewrite Hext.
Qed.

Lemma importFile_on_py_free_stem_witness :
  has_py "pkg\sub/mod" = false
  /\ Model.package_notation ("pkg\sub/mod" ++ ".py") = "pkg.sub.mod".
Proof.
  split; [reflexivity |].
  exact (proj1 (proj2 (importFile_on_py_free_stem "pkg\sub/mod" new_Model
                         eq_refl))).
Defined.



(** X16.  A path that is relative already and written with slashes goes
    through [execFile] unchanged. *)
Theorem execFile_keeps_relative_path (filepath : string) (w : world)
  (Hslashes : occurs "\"%char filepath = false)
  (Hrelative : leading_slash filepath = false) :
  Model.relative_path filepath = filepath
  /\ Model.execFile filepath w
     = Done tt (mkWorld (callbacks w) JNull (types w)
                  (pending w ++ [exec_request filepath])
                  (trace w ++ [ajax (exec_request filepath)])).
Proof.
  assert (Hsame : Model.relative_path filepath = filepath).
  { rewrite relative_path_strips, replace_char_absent by assumption.
    destruct filepath as [| a rest]; [reflexivity |].
    cbn [leading_slash] in Hrelative. cbn [strip_leading_slash].
    now rewrite Hrelative. }
  split; [exact Hsame |].
  unfold Model.execFile. rewrite Hsame. reflexivity.
Qed.

Lemma execFile_keeps_relative_path_witness :
  occurs "\"%char "a/b.py" = false
  /\ leading_slash "a/b.py" = false
  /\ Model.relative_path "a/b.py" = "a/b.py".
Proof.
  split; [reflexivity |]. split; [reflexivity |].
  exact (proj1 (execFile_keeps_relative_path "a/b.py" new_Model
                  eq_refl eq_refl)).
Defined.

(* ================================================================== *)
(** ** newFile and newFolder *)

(** X17.  With the name the prompt delivers, [newFile] and [newFolder]
    send one request each for the path [folderpath/name], or for [name]
    alone when [folderpath] is not given or is the empty string (so the
    path never begins with a slash the caller did not write).  Neither
    clears the snapshot cache.  The second argument [newFolder] passes to
    [createFolder] changes nothing: the listeners are notified once, when
    the answer comes. *)
Theorem newFile_and_newFolder_paths
  (folderpath : option string) (name : string) (w : world) (s : string) :
  let full := Model.path_in folderpath name in
  let contents :=
    Model.quotes ++ Model.newline ++ "   " ++ full ++ Model.newline
      ++ Model.quotes ++ Model.newline ++ Model.newline in
  let qfile := file_request (Model.str full) (Model.str contents)
                 VUndefined in
  let qfolder := folder_request (Model.str full) in
  let sent q := mkWorld (callbacks w) (modelJSON w) (types w)
                  (pending w ++ [q]) (trace w ++ [ajax q]) in
  Model.newFile folderpath name w = Done tt (sent qfile)
  /\ Model.newFolder folderpath name w = Done tt (sent qfolder)
  /\ respond (List.length (pending w)) (as_text s) (sent qfolder)
     = Some (Done tt
               (mkWorld (callbacks w) (modelJSON w) (types w) (pending w)
                  (trace w ++ ajax qfolder
                     :: debug_info "Model: updating listeners:"
                     :: map reaction (callbacks w))))
  /\ ((folderpath = None \/ folderpath = Some "") /\ full = name
      \/ exists folder, folderpath = Some folder /\ folder <> ""
                        /\ full = folder ++ "/" ++ name).
Proof.
  intros full contents qfile qfolder sent. subst sent. cbv beta.
  split; [| split; [| split]].
  - unfold Model.newFile, Model.setFile, jQuery_ajax, emit, write, bind.
    now rewrite <- (world_eta w) at 1.
  - unfold Model.newFolder, Model.createFolder, jQuery_ajax, emit, write,
      bind.
    now rewrite <- (world_eta w) at 1.
  - erewrite respond_last; [| reflexivity | reflexivity].
    rewrite updateListeners_run. unfold set_trace, notification.
    cbn [callbacks modelJSON types pending trace].
    rewrite <- app_assoc. reflexivity.
  - subst full. unfold Model.path_in.
    destruct folderpath as [folder |]; [| left; split; [now left | easy]].
    destruct (String.eqb_spec folder "") as [-> | Hne]; cbn [negb].
    + left. split; [now right | reflexivity].
    + right. now exists folder.
Qed.

(* ================================================================== *)
(** ** Two snapshot requests under way *)

(** X18.  [getJSON] does not wait for a request that is under way: called
    twice without a snapshot in the cache it sends two requests.  Each
    answer goes to the callback of its own request, and the cache holds the
    answer that came last. *)
Theorem getJSON_twice_asks_twice
  (w : world) (f g : nat) (errorHandler errorHandler' : value)
  (j1 j2 : json) :
  let qf := json_request (VFunction f) errorHandler in
  let qg := json_request (VFunction g) errorHandler' in
  let asked := after (Model.getJSON (VFunction g) errorHandler'
                        (after (Model.getJSON (VFunction f) errorHandler
                                  (set_modelJSON JNull w)))) in
  let first := mkWorld (callbacks w) j1 (types w) (pending w ++ [qg])
                 (trace w ++ [ajax qf; ajax qg; invoke f [VData j1]]) in
  let second := mkWorld (callbacks w) j2 (types w) (pending w)
                  (trace w ++ [ajax qf; ajax qg; invoke f [VData j1];
                               invoke g [VData j2]]) in
  pending asked = (pending w ++ [qf; qg])%list
  /\ requests_to "model.json" (trace asked)
     = S (S (requests_to "model.json" (trace w)))
  /\ respond (List.length (pending w)) (as_json j1) asked
     = Some (Done tt first)
  /\ respond (List.length (pending w)) (as_json j2) first
     = Some (Done tt second).
Proof.
  intros qf qg asked first second. subst asked.
  rewrite getJSON_asks. cbn [after]. rewrite getJSON_run.
  cbn [modelJSON Model.not_null after callbacks types pending trace].
  rewrite <- !app_assoc. cbn [app].
  split; [reflexivity |]. split; [| split].
  - rewrite requests_to_app. simpl. lia.
  - erewrite respond_middle; [| reflexivity | reflexivity].
    run_js. rewrite <- app_assoc. reflexivity.
  - unfold first. erewrite respond_last; [| reflexivity | reflexivity].
    run_js. rewrite <- app_assoc. reflexivity.
Qed.
